(** * SCHD dividend calculator: yield, income projection and price cache

    A shallow embedding of the logic of [src/App.tsx] (the latest of the
    component versions kept in that file), [src/constants.ts] and
    [src/netlify/functions/get-schd-price.js].

    Numbers.  A JavaScript [number] is modelled as an exact rational, one of
    the two infinities, or [NaN].  Rounding to binary64, overflow and the
    sign of zero are idealised away; [NaN] and the infinities are kept
    because the code's guards ([x > 0], [x <= 0], [if (x)]) behave on them
    in ways the control flow depends on. *)

From Stdlib Require Import ZArith QArith Qround Qabs Bool List String Ascii.
From Stdlib Require Import Lia Lqa.
From Corelib Require PrimFloat.
Import ListNotations.

Set Warnings "-register-all,-inexact-float".

Local Open Scope Q_scope.

(** ** JavaScript numbers *)

Inductive number : Type :=
| NaN
| Fin (q : Q)
| Inf (negative : bool).

Module Num.

Definition Qlt_bool (a b : Q) : bool := negb (Qle_bool b a).

Definition is_neg (q : Q) : bool := Qlt_bool q 0.

Definition neg (a : number) : number :=
  match a with
  | NaN => NaN
  | Fin q => Fin (- q)
  | Inf s => Inf (negb s)
  end.

Definition add (a b : number) : number :=
  match a, b with
  | NaN, _ | _, NaN => NaN
  | Fin x, Fin y => Fin (x + y)
  | Fin _, Inf s | Inf s, Fin _ => Inf s
  | Inf s, Inf t => if Bool.eqb s t then Inf s else NaN
  end.

Definition sub (a b : number) : number := add a (neg b).

Definition mul (a b : number) : number :=
  match a, b with
  | NaN, _ | _, NaN => NaN
  | Fin x, Fin y => Fin (x * y)
  | Fin x, Inf s | Inf s, Fin x =>
      if Qeq_bool x 0 then NaN else Inf (xorb s (is_neg x))
  | Inf s, Inf t => Inf (xorb s t)
  end.

Definition div (a b : number) : number :=
  match a, b with
  | NaN, _ | _, NaN => NaN
  | Fin x, Fin y =>
      if Qeq_bool y 0
      then (if Qeq_bool x 0 then NaN else Inf (is_neg x))
      else Fin (x / y)
  | Fin _, Inf _ => Fin 0
  | Inf s, Fin y => Inf (xorb s (is_neg y))
  | Inf _, Inf _ => NaN
  end.

(** [a < b]; every comparison with [NaN] is false. *)
Definition lt (a b : number) : bool :=
  match a, b with
  | NaN, _ | _, NaN => false
  | Fin x, Fin y => Qlt_bool x y
  | Fin _, Inf s => negb s
  | Inf s, Fin _ => s
  | Inf s, Inf t => s && negb t
  end.

(** [a <= b]. *)
Definition le (a b : number) : bool :=
  match a, b with
  | NaN, _ | _, NaN => false
  | Fin x, Fin y => Qle_bool x y
  | Fin _, Inf s => negb s
  | Inf s, Fin _ => s
  | Inf s, Inf t => s || negb t
  end.

Definition gt (a b : number) : bool := lt b a.
Definition ge (a b : number) : bool := le b a.

(** [a === b] on numbers. *)
Definition strict_eq (a b : number) : bool :=
  match a, b with
  | Fin x, Fin y => Qeq_bool x y
  | Inf s, Inf t => Bool.eqb s t
  | _, _ => false
  end.

(** ToBoolean on a number: false for 0 and NaN. *)
Definition truthy (a : number) : bool :=
  match a with
  | NaN => false
  | Fin x => negb (Qeq_bool x 0)
  | Inf _ => true
  end.

Definition of_Z (z : Z) : number := Fin (inject_Z z).

(** Equality of numbers up to the representation of the rational. *)
Definition eq (a b : number) : Prop :=
  match a, b with
  | NaN, NaN => True
  | Fin x, Fin y => x == y
  | Inf s, Inf t => s = t
  | _, _ => False
  end.

End Num.

Declare Scope num_scope.
Delimit Scope num_scope with num.
Bind Scope num_scope with number.
Infix "+" := Num.add : num_scope.
Infix "-" := Num.sub : num_scope.
Infix "*" := Num.mul : num_scope.
Infix "/" := Num.div : num_scope.
Infix "<?" := Num.lt : num_scope.
Infix "<=?" := Num.le : num_scope.
Infix ">?" := Num.gt (at level 70) : num_scope.
Infix ">=?" := Num.ge (at level 70) : num_scope.
Infix "===" := Num.strict_eq (at level 70) : num_scope.
Infix "=n=" := Num.eq (at level 70).

(** A decimal literal [m]e-[k], such as [0.26 = dec 26 2]. *)
Definition dec (m : Z) (k : nat) : number := Fin (m # Pos.of_nat (10 ^ k)).

(** ** Strings: [parseInt(s, 10)], [parseFloat(s)] and [toFixed(2)]

    Strings are sequences of bytes; the white space skipped by the parsers
    is the ASCII part of StrWhiteSpaceChar. *)

Open Scope string_scope.

Module Str.

Definition is_space (c : ascii) : bool :=
  let n := nat_of_ascii c in
  ((9 <=? n) && (n <=? 13))%nat || (n =? 32)%nat.

Definition is_digit (c : ascii) : bool :=
  let n := nat_of_ascii c in ((48 <=? n) && (n <=? 57))%nat.

Definition digit_val (c : ascii) : Z := Z.of_nat (nat_of_ascii c) - 48.

Fixpoint skip_space (s : string) : string :=
  match s with
  | String c r => if is_space c then skip_space r else s
  | EmptyString => s
  end.

(** An optional sign: [true] for a leading minus. *)
Definition take_sign (s : string) : bool * string :=
  match s with
  | String "-" r => (true, r)
  | String "+" r => (false, r)
  | _ => (false, s)
  end.

(** The longest prefix of decimal digits and what follows it. *)
Fixpoint take_digits (s : string) : list Z * string :=
  match s with
  | String c r =>
      if is_digit c
      then let '(ds, rest) := take_digits r in (digit_val c :: ds, rest)
      else ([], s)
  | EmptyString => ([], s)
  end.

Definition digits_value (ds : list Z) : Z :=
  fold_left (fun acc d => acc * 10 + d)%Z ds 0%Z.

Definition signed (negative : bool) (z : Z) : Z :=
  if negative then (- z)%Z else z.

(** [parseInt(s, 10)]: [NaN] when no digit follows the optional sign. *)
Definition parseInt10 (s : string) : number :=
  let '(sg, r) := take_sign (skip_space s) in
  match take_digits r with
  | ([], _) => NaN
  | (ds, _) => Num.of_Z (signed sg (digits_value ds))
  end.

(** The exponent part [e[+-]ddd] if it is complete, else exponent 0. *)
Definition take_exponent (s : string) : Z :=
  match s with
  | String c r =>
      if (Ascii.eqb c "e" || Ascii.eqb c "E")%bool
      then let '(sg, r') := take_sign r in
           match take_digits r' with
           | ([], _) => 0%Z
           | (ds, _) => signed sg (digits_value ds)
           end
      else 0%Z
  | EmptyString => 0%Z
  end.

(** [parseFloat(s)]: the value of the longest prefix that is a
    StrDecimalLiteral, [NaN] if there is none. *)
Definition parseFloat (s : string) : number :=
  let '(sg, r) := take_sign (skip_space s) in
  if String.prefix "Infinity" r then Inf sg
  else
    let '(ip, r1) := take_digits r in
    let '(fp, r2) :=
      match r1 with
      | String "." r' => take_digits r'
      | _ => ([], r1)
      end in
    match ip, fp with
    | [], [] => NaN
    | _, _ =>
        let m := signed sg (digits_value (ip ++ fp)) in
        let e := (take_exponent r2 - Z.of_nat (List.length fp))%Z in
        Fin (inject_Z m * Qpower (inject_Z 10) e)
    end.

(** Decimal digits of a natural number, most significant first. *)
Fixpoint digits_fuel (fuel : nat) (n : Z) (acc : string) : string :=
  match fuel with
  | O => acc
  | S f =>
      let acc' := String (ascii_of_nat (Z.to_nat (n mod 10) + 48)) acc in
      if (n <? 10)%Z then acc' else digits_fuel f (n / 10)%Z acc'
  end.

Definition digits_of (n : Z) : string :=
  digits_fuel (S (Z.to_nat (Z.log2 n))) n "".

End Str.

(** ** Values, completions and the browser runtime *)

(** A JavaScript value as far as JSON bodies and [any]-typed fields need. *)
Inductive value : Type :=
| VUndefined
| VNull
| VBool (b : bool)
| VNum (n : number)
| VStr (s : string)
| VArr (items : list value)
| VObj (fields : list (string * value)).

(** The outcome of an expression that may throw. *)
Inductive completion (A : Type) : Type :=
| Normal (a : A)
| Throw.
Arguments Normal {A} a.
Arguments Throw {A}.

Definition bind {A B} (c : completion A) (k : A -> completion B)
  : completion B :=
  match c with
  | Normal a => k a
  | Throw => Throw
  end.

(** [try { body } catch (e) { handler }] *)
Definition try_catch {A} (body : completion A) (handler : A) : A :=
  match body with
  | Normal a => a
  | Throw => handler
  end.

Notation "x <- c ;; k" := (bind c (fun x => k))
  (at level 61, c at next level, right associativity).

Module Val.

(** ToBoolean. *)
Definition truthy (v : value) : bool :=
  match v with
  | VUndefined | VNull => false
  | VBool b => b
  | VNum n => Num.truthy n
  | VStr s => negb (String.eqb s "")
  | VArr _ | VObj _ => true
  end.

Fixpoint lookup (k : string) (fs : list (string * value)) : value :=
  match fs with
  | [] => VUndefined
  | (k', v) :: r => if String.eqb k k' then v else lookup k r
  end.

(** [v.k] for a key that no prototype defines ([price], [c], [error]):
    a TypeError on [null] and [undefined], the own property of an object,
    [undefined] on everything else. *)
Definition get (v : value) (k : string) : completion value :=
  match v with
  | VUndefined | VNull => Throw
  | VObj fs => Normal (lookup k fs)
  | _ => Normal VUndefined
  end.

(** [typeof v === 'number'] *)
Definition is_number (v : value) : bool :=
  match v with VNum _ => true | _ => false end.

(** What [JSON.parse(JSON.stringify(v))] gives back: numbers that are not
    finite become [null], [undefined] becomes [null] inside an array and
    drops the field inside an object. *)
Fixpoint wire (v : value) : value :=
  match v with
  | VNum (Fin q) => VNum (Fin q)
  | VNum _ => VNull
  | VArr l =>
      VArr (map (fun x => match x with VUndefined => VNull | _ => wire x end) l)
  | VObj fs =>
      VObj ((fix fields (l : list (string * value)) : list (string * value) :=
               match l with
               | [] => []
               | (k, VUndefined) :: r => fields r
               | (k, x) :: r => (k, wire x) :: fields r
               end) fs)
  | _ => v
  end.

End Val.

(** A [Date] object: its time value in milliseconds, or Invalid Date.  The
    getters read the time value as local time in a browser whose own zone
    is UTC; the code calls them only on a date built from a wall-clock
    string, where the browser's zone cancels out. *)
Inductive Date : Type :=
| InvalidDate
| DateAt (t : Z).

Module DateObj.

Definition msPerMinute : Z := 60000.
Definition msPerHour : Z := 3600000.
Definition msPerDay : Z := 86400000.

Definition valueOf (d : Date) : number :=
  match d with
  | InvalidDate => NaN
  | DateAt t => Num.of_Z t
  end.

Definition field (f : Z -> Z) (d : Date) : number :=
  match d with
  | InvalidDate => NaN
  | DateAt t => Num.of_Z (f t)
  end.

(** 0 = Sunday ... 6 = Saturday; 1 January 1970 was a Thursday. *)
Definition WeekDay (t : Z) : Z := ((t / msPerDay + 4) mod 7)%Z.
Definition HourFromTime (t : Z) : Z := ((t / msPerHour) mod 24)%Z.
Definition MinFromTime (t : Z) : Z := ((t / msPerMinute) mod 60)%Z.

Definition getDay : Date -> number := field WeekDay.
Definition getHours : Date -> number := field HourFromTime.
Definition getMinutes : Date -> number := field MinFromTime.

End DateObj.

(** An HTTP response as [fetch] resolves it: the status and what
    [response.json()] gives, which throws on a body that is not JSON. *)
Record response : Type := mkResponse {
  status : Z;
  json : completion value
}.

Definition ok (r : response) : bool :=
  ((200 <=? status r) && (status r <=? 299))%Z.

(** [localStorage]: string keys to string values. *)
Definition storage : Type := list (string * string).

Fixpoint getItem (s : storage) (k : string) : option string :=
  match s with
  | [] => None
  | (k', v) :: r => if String.eqb k k' then Some v else getItem r k
  end.

Fixpoint setItem (s : storage) (k v : string) : storage :=
  match s with
  | [] => [(k, v)]
  | (k', v') :: r =>
      if String.eqb k k' then (k, v) :: r else (k', v') :: setItem r k v
  end.

(** A string read from storage in a condition: [null] and [""] are falsy. *)
Definition present (o : option string) : bool :=
  match o with
  | Some s => negb (String.eqb s "")
  | None => false
  end.

(** ** src/constants.ts and the types of the application *)

Record DividendData : Type := mkDividend {
  date : string;
  dividend : number
}.

Definition DIVIDEND_HISTORY : list DividendData :=
  [ mkDividend "6/25/2025" (dec 26 2);
    mkDividend "3/26/2025" (dec 25 2);
    mkDividend "12/11/2024" (dec 26 2);
    mkDividend "9/25/2024" (dec 25 2);
    mkDividend "6/26/2024" (dec 27 2);
    mkDividend "3/20/2024" (dec 20 2);
    mkDividend "12/6/2023" (dec 25 2);
    mkDividend "9/20/2023" (dec 22 2);
    mkDividend "6/21/2023" (dec 22 2);
    mkDividend "3/22/2023" (dec 20 2);
    mkDividend "12/7/2022" (dec 23 2);
    mkDividend "9/21/2022" (dec 21 2);
    mkDividend "6/22/2022" (dec 23 2);
    mkDividend "3/23/2022" (dec 17 2);
    mkDividend "12/8/2021" (dec 21 2);
    mkDividend "9/22/2021" (dec 20 2);
    mkDividend "6/23/2021" (dec 18 2);
    mkDividend "3/24/2021" (dec 17 2);
    mkDividend "12/10/2020" (dec 20 2);
    mkDividend "9/23/2020" (dec 18 2) ].

Inductive YieldMethod : Type := forward | ttm.

Record PeriodicIncome : Type := mkIncome {
  annually : number;
  quarterly : number;
  monthly : number;
  daily : number
}.

(** The part of the component state the price fetch writes. *)
Record PriceState : Type := mkPriceState {
  sharePrice : value;
  isPriceLoading : bool;
  priceError : option string
}.

Definition CACHE_KEY_PRICE : string := "schd_price".
Definition CACHE_KEY_TIMESTAMP : string := "schd_price_timestamp".
Definition CACHE_DURATION_TRADING_MIN : number := Fin 15.
Definition CACHE_DURATION_CLOSED_HRS : number := (Fin 24 * Fin 60)%num.

(** The price set when the fetch fails. *)
Definition FALLBACK_PRICE : number := Fin 27.

(** ** src/netlify/functions/get-schd-price.js

    [upstream] is what [fetch(url)] to the data provider resolves to;
    reading the text of a failed answer is taken not to throw. *)

Record handlerResult : Type := mkResult {
  statusCode : Z;
  body : value
}.

Definition errorBody (msg : string) : value := VObj [("error", VStr msg)].

Definition handler (apiKey : option string) (upstream : completion response)
  : handlerResult :=
  if negb (present apiKey)
  then mkResult 500 (errorBody "API key is not configured.")
  else
    try_catch
      (r <- upstream ;;
       if negb (ok r)
       then Normal (mkResult (status r)
                      (errorBody "Failed to fetch price from data provider."))
       else
         data <- json r ;;
         c <- Val.get data "c" ;;
         match c with
         | VNum n =>
             if (n <=? Fin 0)%num
             then Normal (mkResult 500 (errorBody "Received invalid price data."))
             else Normal (mkResult 200 (VObj [("price", VNum n)]))
         | _ => Normal (mkResult 500 (errorBody "Received invalid price data."))
         end)
      (mkResult 500 (errorBody "An internal error occurred.")).

(** The function's result as the browser receives it: the body went through
    [JSON.stringify] on one side and [response.json()] on the other. *)
Definition served (h : handlerResult) : response :=
  mkResponse (statusCode h) (Normal (Val.wire (body h))).

(** ** src/App.tsx *)

Section App.

(** What the browser supplies: [String(v)] for a value, the wall clock of
    New York for an instant ([new Date(now.toLocaleString('en-US',
    { timeZone: 'America/New_York' }))], which may throw or give Invalid
    Date), and [new Date(s)] for a date string. *)
Variable valueToString : value -> string.
Variable toLocaleET : Z -> completion Date.
Variable parseDate : string -> Date.

Definition numberToString (n : number) : string := valueToString (VNum n).

(** [x.toFixed(2)] *)
Definition toFixed2 (x : number) : string :=
  match x with
  | Fin q =>
      let s := if Num.is_neg q then "-" else "" in
      let a := Qabs q in
      if Qle_bool (inject_Z (10 ^ 21)) a
      then s ++ numberToString (Fin a)
      else
        let n := Qfloor (a * 100 + (1 # 2)) in
        let m := Str.digits_of n in
        let m := match String.length m with
                 | 1%nat => "00" ++ m
                 | 2%nat => "0" ++ m
                 | _ => m
                 end in
        let k := String.length m in
        s ++ substring 0 (k - 2) m ++ "." ++ substring (k - 2) 2 m
  | _ => numberToString x
  end.

(** *** isMarketOpen *)

Definition isMarketOpen (now : Z) : bool :=
  try_catch
    (etDate <- toLocaleET now ;;
     let day := DateObj.getDay etDate in
     let hour := DateObj.getHours etDate in
     let minute := DateObj.getMinutes etDate in
     if ((day === Fin 0) || (day === Fin 6))%num
     then Normal false
     else
       let timeInMinutes := (hour * Fin 60 + minute)%num in
       let marketOpen := (Fin 9 * Fin 60 + Fin 30)%num in
       let marketClose := (Fin 16 * Fin 60)%num in
       Normal ((timeInMinutes >=? marketOpen)%num
               && (timeInMinutes <? marketClose)%num))
    true.

(** *** pastDividends *)

Definition pastDividends (history : list DividendData) (today : Z)
  : list DividendData :=
  filter (fun d => (DateObj.valueOf (parseDate (date d))
                    <=? DateObj.valueOf (DateAt today))%num)
         history.

(** *** fetchSharePrice

    The setters are batched, so only the last value of each field shows;
    [localStorage.setItem] is taken not to throw. *)

Definition fetchSharePrice (resp : completion response) (now : Z)
    (st : PriceState) (ls : storage) : PriceState * storage :=
  let attempt : completion (value * storage) :=
    r <- resp ;;
    if negb (ok r)
    then errorData <- json r ;;
         _ <- Val.get errorData "error" ;;
         Throw
    else data <- json r ;;
         price <- Val.get data "price" ;;
         if Val.truthy price
         then Normal (price,
                      setItem (setItem ls CACHE_KEY_PRICE (valueToString price))
                              CACHE_KEY_TIMESTAMP
                              (numberToString (Num.of_Z now)))
         else Throw in
  match attempt with
  | Normal (price, ls') => (mkPriceState price false None, ls')
  | Throw =>
      (mkPriceState (VNum FALLBACK_PRICE) false
                    (Some "Could not fetch live price."), ls)
  end.

(** *** managePriceFetch *)

Definition ageInMinutes (now : Z) (timestamp : number) : number :=
  ((Num.of_Z now - timestamp) / (Fin 1000 * Fin 60))%num.

Definition cacheDuration (marketOpen : bool) : number :=
  if marketOpen then CACHE_DURATION_TRADING_MIN else CACHE_DURATION_CLOSED_HRS.

(** The test guarding the early return, on the two parsed strings. *)
Definition cacheFresh (timestamp : number) (now : Z) (marketOpen : bool)
  : bool :=
  (ageInMinutes now timestamp <? cacheDuration marketOpen)%num.

(** [Some price] when the early return is taken with [price].  [now] is
    what [Date.now()] reads and [clock] what [new Date()] reads inside
    [isMarketOpen]. *)
Definition cachedPrice (ls : storage) (now clock : Z) : option number :=
  match getItem ls CACHE_KEY_PRICE, getItem ls CACHE_KEY_TIMESTAMP with
  | Some cp, Some ct =>
      if present (Some cp) && present (Some ct)
      then
        let price := Str.parseFloat cp in
        let timestamp := Str.parseInt10 ct in
        if cacheFresh timestamp now (isMarketOpen clock)
        then Some price
        else None
      else None
  | _, _ => None
  end.

(** [resp] is what the network would answer and [fetchedAt] the instant
    the answer is stored, should the fetch run. *)
Definition managePriceFetch (resp : completion response)
    (now clock fetchedAt : Z) (st : PriceState) (ls : storage)
  : PriceState * storage :=
  match cachedPrice ls now clock with
  | Some price => (mkPriceState (VNum price) false (priceError st), ls)
  | None => fetchSharePrice resp fetchedAt st ls
  end.

(** *** The yield effect *)

Definition sumDividends (l : list DividendData) : number :=
  fold_left (fun acc curr => (acc + dividend curr)%num) l (Fin 0).

Definition annualDividendPerShare (method : YieldMethod)
    (history past : list DividendData) : number :=
  match method with
  | forward =>
      match history with
      | d :: _ => (dividend d * Fin 4)%num
      | [] => Fin 0
      end
  | ttm =>
      if (4 <=? List.length past)%nat
      then sumDividends (firstn 4 past)
      else Fin 0
  end.

(** The new value of [dividendYield] after the effect ran on a state
    where it was [dividendYield]. *)
Definition yieldEffect (sharePrice : number) (method : YieldMethod)
    (history past : list DividendData) (dividendYield : number) : number :=
  if (sharePrice >? Fin 0)%num
  then
    let annual := annualDividendPerShare method history past in
    if (annual >? Fin 0)%num
    then (annual / sharePrice * Fin 100)%num
    else Fin 0
  else dividendYield.

Definition computeYield (price : number) (method : YieldMethod)
    (history : list DividendData) (asOf : Z) (previous : number) : number :=
  yieldEffect price method history (pastDividends history asOf) previous.

(** *** calculateDividends *)

Definition calculateDividends (investment sharePrice dividendYield : number)
  : PeriodicIncome :=
  if ((investment <=? Fin 0) || (sharePrice <=? Fin 0)
      || (dividendYield <=? Fin 0))%num
  then mkIncome (Fin 0) (Fin 0) (Fin 0) (Fin 0)
  else
    let yearly := (investment * (dividendYield / Fin 100))%num in
    mkIncome yearly (yearly / Fin 4)%num (yearly / Fin 12)%num
             (yearly / Fin 365)%num.

(** *** dividendGrowth *)

Definition dividendGrowth (past : list DividendData) : string :=
  if (List.length past <? 8)%nat then "N/A"
  else
    let lastYearDividend := sumDividends (firstn 4 past) in
    let prevYearDividend := sumDividends (firstn 4 (skipn 4 past)) in
    if (prevYearDividend === Fin 0)%num then "N/A"
    else toFixed2 ((lastYearDividend - prevYearDividend)
                   / prevYearDividend * Fin 100)%num.

End App.

(** ** A reference runtime

    One concrete browser to run the definitions on: New York taken at its
    standard offset of five hours behind UTC, date strings of the form
    M/D/YYYY read as midnight UTC, and numbers printed with at most six
    decimals. *)

Module Sample.

Definition toLocaleET (now : Z) : completion Date :=
  Normal (DateAt (now - 5 * DateObj.msPerHour)).

(** Days from 1 January 1970 to the civil date [y]-[m]-[d]. *)
Definition daysFromCivil (y m d : Z) : Z :=
  let y' := if (m <=? 2)%Z then (y - 1)%Z else y in
  let era := (y' / 400)%Z in
  let yoe := (y' - era * 400)%Z in
  let mp := if (m <=? 2)%Z then (m + 9)%Z else (m - 3)%Z in
  let doy := ((153 * mp + 2) / 5 + d - 1)%Z in
  let doe := (yoe * 365 + yoe / 4 - yoe / 100 + doy)%Z in
  (era * 146097 + doe - 719468)%Z.

Definition parseDate (s : string) : Date :=
  let '(ms, r1) := Str.take_digits s in
  match ms, r1 with
  | _ :: _, String "/" r1' =>
      let '(ds, r2) := Str.take_digits r1' in
      match ds, r2 with
      | _ :: _, String "/" r2' =>
          let '(ys, r3) := Str.take_digits r2' in
          match ys, r3 with
          | _ :: _, EmptyString =>
              let m := Str.digits_value ms in
              let d := Str.digits_value ds in
              let y := Str.digits_value ys in
              if ((1 <=? m) && (m <=? 12) && (1 <=? d) && (d <=? 31))%Z
              then DateAt (daysFromCivil y m d * DateObj.msPerDay)
              else InvalidDate
          | _, _ => InvalidDate
          end
      | _, _ => InvalidDate
      end
  | _, _ => InvalidDate
  end.

(** Drops the trailing zeros of a fraction of [w] digits. *)
Fixpoint trimZeros (w : nat) (fp : Z) : nat * Z :=
  match w with
  | O => (O, fp)
  | S w' => if (fp mod 10 =? 0)%Z then trimZeros w' (fp / 10)%Z else (w, fp)
  end.

Definition printQ (q : Q) : string :=
  let s := if Num.is_neg q then "-" else "" in
  let n := Qfloor (Qabs q * inject_Z 1000000 + (1 # 2)) in
  let ip := Str.digits_of (n / 1000000) in
  let '(w, fp) := trimZeros 6 (n mod 1000000)%Z in
  match w with
  | O => s ++ ip
  | _ => s ++ ip ++ "." ++ substring 1 w (Str.digits_of (10 ^ Z.of_nat w + fp))
  end.

Definition valueToString (v : value) : string :=
  match v with
  | VUndefined => "undefined"
  | VNull => "null"
  | VBool true => "true"
  | VBool false => "false"
  | VNum NaN => "NaN"
  | VNum (Inf true) => "-Infinity"
  | VNum (Inf false) => "Infinity"
  | VNum (Fin q) => printQ q
  | VStr s => s
  | VArr _ => ""
  | VObj _ => "[object Object]"
  end.

End Sample.

(** ** The arithmetic once more, in binary64

    The yield effect and the projector on the machine's own floating-point
    numbers, to run the end-to-end scenario with the rounding the browser
    has.  Only the amounts of the history are kept. *)

Module Binary64.

Import PrimFloat.
Local Open Scope float_scope.

Definition DIVIDEND_HISTORY : list float :=
  [ 0.26; 0.25; 0.26; 0.25; 0.27; 0.20; 0.25; 0.22; 0.22; 0.20;
    0.23; 0.21; 0.23; 0.17; 0.21; 0.20; 0.18; 0.17; 0.20; 0.18 ].

Definition sumDividends (l : list float) : float :=
  fold_left (fun acc curr => acc + curr) l 0.

Definition annualDividendPerShare (method : YieldMethod)
    (history past : list float) : float :=
  match method with
  | forward =>
      match history with
      | d :: _ => d * 4
      | [] => 0
      end
  | ttm =>
      if (4 <=? List.length past)%nat
      then sumDividends (firstn 4 past)
      else 0
  end.

Definition yieldEffect (sharePrice : float) (method : YieldMethod)
    (history past : list float) (dividendYield : float) : float :=
  if 0 <? sharePrice
  then
    let annual := annualDividendPerShare method history past in
    if 0 <? annual then annual / sharePrice * 100 else 0
  else dividendYield.

Definition calculateDividends (investment sharePrice dividendYield : float)
  : float * float * float * float :=
  if ((investment <=? 0) || (sharePrice <=? 0) || (dividendYield <=? 0))%bool
  then (0, 0, 0, 0)
  else
    let yearly := investment * (dividendYield / 100) in
    (yearly, yearly / 4, yearly / 12, yearly / 365).

(** [lo <= x < hi] *)
Definition within (lo hi x : float) : bool := ((lo <=? x) && (x <? hi))%bool.

End Binary64.

(** ** src/App.tsx: the annual dividend card *)

(** The object [{ value, label }] of [annualDividendDisplay]. *)
Record AnnualDisplay : Type := mkDisplay {
  displayValue : string;
  displayLabel : string
}.

Definition annualDividendDisplay (valueToString : value -> string)
    (method : YieldMethod) (history past : list DividendData)
  : AnnualDisplay :=
  match method with
  | forward =>
      match history with
      | d :: _ =>
          let forwardDividend :=
            toFixed2 valueToString (dividend d * Fin 4)%num in
          mkDisplay ("$" ++ forwardDividend) "Forward Annual Dividend"
      | [] => mkDisplay "N/A" "Forward Annual Dividend"
      end
  | ttm =>
      if (List.length past <? 4)%nat
      then mkDisplay "N/A" "TTM Annual Dividend"
      else
        let ttmDividend :=
          toFixed2 valueToString (sumDividends (firstn 4 past)) in
        mkDisplay ("$" ++ ttmDividend) "TTM Annual Dividend"
  end.

(** ** src/App.tsx: the component's state under user input

    The four state variables the calculation reads, typed as the code
    declares them.  A setter called with the value the state already has
    changes nothing; the yield effect runs after the first render and after
    every change of the share price or of the method, its two dependencies
    that can change. *)

Record AppState : Type := mkApp {
  stInvestment : number;
  stSharePrice : number;
  stDividendYield : number;
  stYieldMethod : YieldMethod
}.

Inductive event : Type :=
| SetInvestment (n : number)
| SetSharePrice (n : number)
| SetYieldMethod (m : YieldMethod).

(** [Object.is] on two numbers, the sign of zero apart. *)
Definition sameValue (a b : number) : bool :=
  match a, b with
  | NaN, NaN => true
  | Fin x, Fin y => Qeq_bool x y
  | Inf s, Inf t => Bool.eqb s t
  | _, _ => false
  end.

Definition sameMethod (a b : YieldMethod) : bool :=
  match a, b with
  | forward, forward | ttm, ttm => true
  | _, _ => false
  end.

Definition initialState : AppState :=
  mkApp (Fin 10000) (dec 785 1) (dec 348 2) forward.

Definition runYieldEffect (history past : list DividendData) (st : AppState)
  : AppState :=
  mkApp (stInvestment st) (stSharePrice st)
        (yieldEffect (stSharePrice st) (stYieldMethod st) history past
                     (stDividendYield st))
        (stYieldMethod st).

(** The state once the component is mounted. *)
Definition mounted (history past : list DividendData) : AppState :=
  runYieldEffect history past initialState.

Definition dispatch (history past : list DividendData) (st : AppState)
    (ev : event) : AppState :=
  match ev with
  | SetInvestment n =>
      if sameValue n (stInvestment st) then st
      else mkApp n (stSharePrice st) (stDividendYield st) (stYieldMethod st)
  | SetSharePrice n =>
      if sameValue n (stSharePrice st) then st
      else runYieldEffect history past
             (mkApp (stInvestment st) n (stDividendYield st)
                    (stYieldMethod st))
  | SetYieldMethod m =>
      if sameMethod m (stYieldMethod st) then st
      else runYieldEffect history past
             (mkApp (stInvestment st) (stSharePrice st) (stDividendYield st) m)
  end.

(** [const dividends = calculateDividends()] of a render. *)
Definition rendered (st : AppState) : PeriodicIncome :=
  calculateDividends (stInvestment st) (stSharePrice st) (stDividendYield st).

(** ** src/NumberTicker.tsx *)

Module Math.

(** [Math.min(a, b)] *)
Definition min (a b : number) : number :=
  match a, b with
  | NaN, _ | _, NaN => NaN
  | _, _ => if (b <? a)%num then b else a
  end.

(** [Math.pow(x, n)] for a natural exponent. *)
Definition pow (x : number) (n : nat) : number :=
  match n with
  | O => Fin 1
  | _ =>
      match x with
      | NaN => NaN
      | Fin q => Fin (q ^ Z.of_nat n)
      | Inf s => Inf (s && Nat.odd n)
      end
  end.

End Math.

Module Ticker.

(** One call of [animate]: the value displayed after it and whether it
    asked for another frame.  The effect's cleanup, which cancels a running
    animation when a prop changes, is outside the model. *)
Definition animate (value duration startTime currentTime : number)
  : number * bool :=
  let startValue := Fin 0 in
  let elapsed := (currentTime - startTime)%num in
  let progress := Math.min (elapsed / duration)%num (Fin 1) in
  let easeOutQuart := (Fin 1 - Math.pow (Fin 1 - progress)%num 4)%num in
  let currentValue := (startValue + (value - startValue) * easeOutQuart)%num in
  if (progress <? Fin 1)%num
  then (currentValue, true)
  else (value, false).

(** The frames the browser delivers at [times], from a state displaying
    [displayValue]: the value displayed in the end and whether the
    animation completed. *)
Fixpoint runFrames (value duration startTime : number) (times : list number)
    (displayValue : number) : number * bool :=
  match times with
  | [] => (displayValue, false)
  | t :: rest =>
      let '(shown, again) := animate value duration startTime t in
      if again
      then runFrames value duration startTime rest shown
      else (shown, true)
  end.

(** [x.toFixed(f)]: a RangeError for more than 100 digits. *)
Definition toFixed (valueToString : value -> string) (f : nat) (x : number)
  : completion string :=
  if (100 <? f)%nat then Throw
  else
    Normal
      match x with
      | Fin q =>
          let s := if Num.is_neg q then "-" else "" in
          let a := Qabs q in
          if Qle_bool (inject_Z (10 ^ 21)) a
          then s ++ numberToString valueToString (Fin a)
          else
            let n := Qfloor (a * inject_Z (10 ^ Z.of_nat f) + (1 # 2)) in
            let m := Str.digits_of n in
            match f with
            | O => s ++ m
            | _ =>
                let k := String.length m in
                let m := if (k <=? f)%nat
                         then string_of_list_ascii
                                (repeat "0"%char (f + 1 - k)) ++ m
                         else m in
                let k := String.length m in
                s ++ substring 0 (k - f) m ++ "." ++ substring (k - f) f m
            end
      | _ => numberToString valueToString x
      end.

(** [s.split('.')] *)
Fixpoint split_dot (s : string) : list string :=
  match s with
  | EmptyString => [""]
  | String c r =>
      if Ascii.eqb c "."
      then "" :: split_dot r
      else match split_dot r with
           | p :: ps => String c p :: ps
           | [] => [String c ""]
           end
  end.

(** A word character of a regular expression: a letter, a digit or [_]. *)
Definition is_word (c : ascii) : bool :=
  let n := nat_of_ascii c in
  (((48 <=? n) && (n <=? 57)) || ((65 <=? n) && (n <=? 90))
   || ((97 <=? n) && (n <=? 122)) || (n =? 95))%nat.

Definition is_word_opt (o : option ascii) : bool :=
  match o with
  | Some c => is_word c
  | None => false
  end.

(** The length of the longest run of digits [s] starts with. *)
Fixpoint digit_run (s : string) : nat :=
  match s with
  | String c r => if Str.is_digit c then S (digit_run r) else O
  | EmptyString => O
  end.

(** The lookahead [(?=(\d{3})+(?!\d))] at the start of [s]. *)
Definition lookahead (s : string) : bool :=
  ((0 <? digit_run s) && (digit_run s mod 3 =? 0))%nat.

(** [\B] between the character before and the character after. *)
Definition not_boundary (before after : option ascii) : bool :=
  Bool.eqb (is_word_opt before) (is_word_opt after).

(** [s.replace(/\B(?=(\d{3})+(?!\d))/g, ',')], the text before [s] ending
    in [before]. *)
Fixpoint insert_commas (before : option ascii) (s : string) : string :=
  match s with
  | EmptyString => ""
  | String c r =>
      let rest := String c (insert_commas (Some c) r) in
      if not_boundary before (Some c) && lookahead s
      then String "," rest
      else rest
  end.

(** What [formatNumber] does to the text [toFixed] gave. *)
Definition formatText (fixedNum : string) : string :=
  match split_dot fixedNum with
  | p :: ps => String.concat "." (insert_commas None p :: ps)
  | [] => ""
  end.

Definition formatNumber (valueToString : value -> string)
    (decimalPlaces : nat) (num : number) : completion string :=
  fixedNum <- toFixed valueToString decimalPlaces num ;;
  Normal (formatText fixedNum).

(** The text without its commas. *)
Fixpoint strip_commas (s : string) : string :=
  match s with
  | EmptyString => ""
  | String c r =>
      if Ascii.eqb c "," then strip_commas r else String c (strip_commas r)
  end.

(** Digits with a comma before every group of three counted from the
    right end. *)
Fixpoint group_right (ds : string) : string :=
  match ds with
  | EmptyString => ""
  | String c r =>
      String c
        ((if ((0 <? String.length r) && (String.length r mod 3 =? 0))%nat
          then "," else "") ++ group_right r)
  end.

Definition all_digits (s : string) : bool :=
  forallb Str.is_digit (list_ascii_of_string s).

End Ticker.

(** ** src/service-worker.js

    A cache maps the URL of a GET request to the answer stored for it, and
    the cache storage maps names to caches, oldest first.  [cache.put] is
    taken to accept every answer it is given, and a write the worker
    starts is taken to be done before the next event. *)

Inductive responseType : Type := basic | cors | opaque.

(** A [Response] as the worker sees it. *)
Record netResponse : Type := mkNet {
  payload : response;
  kind : responseType
}.

Module SW.

Definition CACHE_NAME : string := "schd-calculator-v1".

Definition URLS_TO_CACHE : list string :=
  [ "/"; "/index.html"; "/manifest.json"; "/icons/icon-192.svg";
    "/icons/icon-512.svg"; "/index.tsx"; "/App.tsx"; "/constants.ts";
    "/types.ts" ].

Definition cache : Type := list (string * netResponse).
Definition cacheStorage : Type := list (string * cache).

(** [cache.match(request)] *)
Fixpoint cacheMatch (c : cache) (url : string) : option netResponse :=
  match c with
  | [] => None
  | (u, r) :: rest => if String.eqb url u then Some r else cacheMatch rest url
  end.

(** [cache.put(request, response)] *)
Fixpoint cachePut (c : cache) (url : string) (r : netResponse) : cache :=
  match c with
  | [] => [(url, r)]
  | (u, r') :: rest =>
      if String.eqb url u then (url, r) :: rest
      else (u, r') :: cachePut rest url r
  end.

Fixpoint find (cs : cacheStorage) (name : string) : option cache :=
  match cs with
  | [] => None
  | (n, c) :: rest => if String.eqb name n then Some c else find rest name
  end.

(** [caches.keys()] *)
Definition keys (cs : cacheStorage) : list string := map fst cs.

(** [caches.open(name)] creates the cache when there is none. *)
Definition open (cs : cacheStorage) (name : string) : cacheStorage :=
  match find cs name with
  | Some _ => cs
  | None => (cs ++ [(name, [])])%list
  end.

(** [caches.open(name).then(cache => cache.put(request, response))] *)
Fixpoint putIn (cs : cacheStorage) (name url : string) (r : netResponse)
  : cacheStorage :=
  match cs with
  | [] => [(name, [(url, r)])]
  | (n, c) :: rest =>
      if String.eqb name n then (n, cachePut c url r) :: rest
      else (n, c) :: putIn rest name url r
  end.

(** [caches.delete(name)] *)
Definition delete (cs : cacheStorage) (name : string) : cacheStorage :=
  filter (fun e => negb (String.eqb name (fst e))) cs.

(** [caches.match(request)]: the first cache that has the request. *)
Fixpoint matchAny (cs : cacheStorage) (url : string) : option netResponse :=
  match cs with
  | [] => None
  | (_, c) :: rest =>
      match cacheMatch c url with
      | Some r => Some r
      | None => matchAny rest url
      end
  end.

(** [cache.add(url)]: the answer is stored unless the fetch fails, the
    status is not 2xx, or it is 206. *)
Definition addable (r : netResponse) : bool :=
  ok (payload r) && negb (status (payload r) =? 206)%Z.

(** The install event.  The listed paths are resolved against the
    worker's [origin]; [network] is what a fetch of each resolved URL
    resolves to.  A URL that cannot be added is skipped. *)
Definition install (origin : string)
    (network : string -> completion netResponse) (cs : cacheStorage)
  : cacheStorage :=
  fold_left
    (fun acc url =>
       match network url with
       | Normal r => if addable r then putIn acc CACHE_NAME url r else acc
       | Throw => acc
       end)
    (map (append origin) URLS_TO_CACHE) (open cs CACHE_NAME).

(** [cacheWhitelist.indexOf(cacheName) === -1] *)
Definition notListed (whitelist : list string) (name : string) : bool :=
  negb (existsb (String.eqb name) whitelist).

(** The activate event. *)
Definition activate (cs : cacheStorage) : cacheStorage :=
  let cacheWhitelist := [CACHE_NAME] in
  fold_left
    (fun acc cacheName =>
       if notListed cacheWhitelist cacheName then delete acc cacheName
       else acc)
    (keys cs) cs.

(** [hay.includes(needle)] *)
Fixpoint includes (hay needle : string) : bool :=
  String.prefix needle hay
  || match hay with
     | String _ r => includes r needle
     | EmptyString => false
     end.

Definition API_PATH : string := "/.netlify/functions/get-schd-price".

(** [option] to a promise that [respondWith] takes: [undefined] makes the
    page's fetch fail. *)
Definition respond (o : option netResponse) : completion netResponse :=
  match o with
  | Some r => Normal r
  | None => Throw
  end.

(** The fetch event for a GET of [url]; [network] is what
    [fetch(event.request)] resolves to.  Gives what the page receives and
    the cache storage afterwards. *)
Definition onFetch (cs : cacheStorage) (url : string)
    (network : completion netResponse)
  : completion netResponse * cacheStorage :=
  if includes url API_PATH
  then
    match network with
    | Normal r => (Normal r, putIn cs CACHE_NAME url r)
    | Throw => (respond (matchAny cs url), cs)
    end
  else
    let cs := open cs CACHE_NAME in
    let cachedResponse :=
      match find cs CACHE_NAME with
      | Some c => cacheMatch c url
      | None => None
      end in
    let '(fetched, cs') :=
      match network with
      | Normal r =>
          if (status (payload r) =? 200)%Z
             || match kind r with opaque => true | _ => false end
          then (Some r, putIn cs CACHE_NAME url r)
          else (Some r, cs)
      | Throw => (None, cs)
      end in
    (respond (match cachedResponse with
              | Some c => Some c
              | None => fetched
              end), cs').

(** The answer the cache called [name] holds for [url]. *)
Definition lookupIn (cs : cacheStorage) (name url : string)
  : option netResponse :=
  match find cs name with
  | Some c => cacheMatch c url
  | None => None
  end.


End SW.

(** ** Vocabulary of the statements *)

(** The income of the guarded branch. *)
Definition noIncome : PeriodicIncome :=
  mkIncome (Fin 0) (Fin 0) (Fin 0) (Fin 0).

(** The data model's invariant on amounts, weakened to "not negative". *)
Definition nonNegative (d : DividendData) : Prop :=
  (dividend d >=? Fin 0)%num = true.

(** A day in July 2025, after every date of [DIVIDEND_HISTORY], and a day
    in May 2025, before the first of them. *)
Definition july2025 : Z := 1751328000000.
Definition may2025 : Z := 1746057600000.

(** The state every failed fetch leaves. *)
Definition fallbackState : PriceState :=
  mkPriceState (VNum FALLBACK_PRICE) false (Some "Could not fetch live price.").

(** The ways the answer of the endpoint can fail the browser: the network
    throws, the status is not 2xx, the body is not JSON, the body has no
    [price] to read, or its [price] is falsy (missing, [null], 0, [""]). *)
Inductive fetchFailure : completion response -> Prop :=
| networkException : fetchFailure Throw
| nonOkStatus r : ok r = false -> fetchFailure (Normal r)
| malformedJson r : json r = Throw -> fetchFailure (Normal r)
| noBody r data :
    json r = Normal data -> Val.get data "price" = Throw ->
    fetchFailure (Normal r)
| falsyPrice r data v :
    json r = Normal data -> Val.get data "price" = Normal v ->
    Val.truthy v = false -> fetchFailure (Normal r).

(** The data provider supplies the price [q]: a 2xx answer whose JSON body
    has a number [c] that is greater than 0. *)
Inductive supplies : completion response -> Q -> Prop :=
| supplies_intro r data q :
    ok r = true -> json r = Normal data ->
    Val.get data "c" = Normal (VNum (Fin q)) -> 0 < q ->
    supplies (Normal r) q.

(** The ways the provider can fail the function. *)
Inductive providerFailure : completion response -> Prop :=
| providerException : providerFailure Throw
| providerStatus r : ok r = false -> providerFailure (Normal r)
| providerMalformed r : json r = Throw -> providerFailure (Normal r)
| providerNoBody r data :
    json r = Normal data -> Val.get data "c" = Throw ->
    providerFailure (Normal r)
| providerNotNumber r data v :
    json r = Normal data -> Val.get data "c" = Normal v ->
    Val.is_number v = false -> providerFailure (Normal r)
| providerNotPositive r data n :
    json r = Normal data -> Val.get data "c" = Normal (VNum n) ->
    (n <=? Fin 0)%num = true -> providerFailure (Normal r).

(** [x] is [v] to within half a cent. *)
Definition approx (x : number) (v : Q) : Prop :=
  match x with
  | Fin q => Qabs (q - v) < 1 # 200
  | _ => False
  end.

(** A string that is not empty and does not start with the letter N. *)
Definition headNotN (s : string) : Prop :=
  exists c r, s = String c r /\ c <> "N"%char.

(** The share of the duration [d] elapsed at time [t] of an animation
    started at [s], and the weight the easing gives to a share. *)
Definition elapsedShare (d s t : Q) : Q := (t + - s) / d.
Definition easeWeight (x : Q) : Q :=
  1 - (1 - x) * (1 - x) * ((1 - x) * (1 - x)).


(** * Properties *)

(** ** Arithmetic of [number] *)

Module NumFacts.

Lemma Qlt_bool_iff (a b : Q) : Num.Qlt_bool a b = true <-> a < b.
Proof.
  unfold Num.Qlt_bool. rewrite negb_true_iff.
  split; intro H.
  - apply Qnot_le_lt. intro L. apply Qle_bool_iff in L. congruence.
  - destruct (Qle_bool b a) eqn:E; [|reflexivity].
    apply Qle_bool_iff in E. exfalso. apply (Qlt_not_le _ _ H E).
Qed.

Lemma Qlt_bool_false (a b : Q) : Num.Qlt_bool a b = false <-> b <= a.
Proof.
  unfold Num.Qlt_bool. rewrite negb_false_iff. apply Qle_bool_iff.
Qed.

Lemma Qle_bool_false (a b : Q) : Qle_bool a b = false <-> b < a.
Proof.
  rewrite <- Qlt_bool_iff. unfold Num.Qlt_bool.
  destruct (Qle_bool a b); simpl; intuition congruence.
Qed.

Lemma Qeq_bool_false (a b : Q) : Qeq_bool a b = false <-> ~ a == b.
Proof.
  split; intro H.
  - intro E. apply Qeq_bool_iff in E. congruence.
  - destruct (Qeq_bool a b) eqn:E; [|reflexivity].
    apply Qeq_bool_iff in E. contradiction.
Qed.

Lemma eq_refl (a : number) : a =n= a.
Proof. destruct a; simpl; auto. reflexivity. Qed.

Lemma eq_sym (a b : number) : a =n= b -> b =n= a.
Proof. destruct a, b; simpl; auto. intro H. symmetry. exact H. Qed.

Lemma eq_trans (a b c : number) : a =n= b -> b =n= c -> a =n= c.
Proof.
  destruct a, b, c; simpl; try tauto; try congruence.
  intros H1 H2. rewrite H1. exact H2.
Qed.

(** Comparisons of integers carried as numbers. *)
Lemma lt_of_Z (a b : Z) : (Num.of_Z a <? Num.of_Z b)%num = (a <? b)%Z.
Proof.
  simpl. apply eq_true_iff_eq. rewrite Qlt_bool_iff, Z.ltb_lt, <- Zlt_Qlt.
  reflexivity.
Qed.

Lemma le_of_Z (a b : Z) : (Num.of_Z a <=? Num.of_Z b)%num = (a <=? b)%Z.
Proof.
  simpl. apply eq_true_iff_eq. rewrite Qle_bool_iff, Z.leb_le, <- Zle_Qle.
  reflexivity.
Qed.

Lemma strict_eq_of_Z (a b : Z) : (Num.of_Z a === Num.of_Z b)%num = (a =? b)%Z.
Proof.
  simpl. apply eq_true_iff_eq.
  rewrite Qeq_bool_iff, Z.eqb_eq, inject_Z_injective.
  reflexivity.
Qed.

(** A number that is [> 0] or [>= 0] is not [NaN]. *)
Lemma gt0_cases (a : number) :
  (a >? Fin 0)%num = true ->
  (exists q, a = Fin q /\ 0 < q) \/ a = Inf false.
Proof.
  destruct a as [|q|[|]]; simpl; try discriminate.
  - intro H. left. exists q. split; [reflexivity|]. now apply Qlt_bool_iff.
  - right. reflexivity.
Qed.

Lemma ge0_cases (a : number) :
  (a >=? Fin 0)%num = true ->
  (exists q, a = Fin q /\ 0 <= q) \/ a = Inf false.
Proof.
  destruct a as [|q|[|]]; simpl; try discriminate.
  - intro H. left. exists q. split; [reflexivity|]. now apply Qle_bool_iff.
  - right. reflexivity.
Qed.

End NumFacts.

(** ** The income projector *)

Module NumArith.

Lemma is_neg_iff (q : Q) : Num.is_neg q = true <-> q < 0.
Proof. apply NumFacts.Qlt_bool_iff. Qed.

Lemma is_neg_compat (a b : Q) :
  (a < 0 <-> b < 0) -> Num.is_neg a = Num.is_neg b.
Proof.
  intro H. apply eq_true_iff_eq. rewrite !is_neg_iff. exact H.
Qed.

Lemma Qeq_bool_compat (a b : Q) :
  (a == 0 <-> b == 0) -> Qeq_bool a 0 = Qeq_bool b 0.
Proof.
  intro H. apply eq_true_iff_eq. rewrite !Qeq_bool_iff. exact H.
Qed.

(** Scaling by a positive constant keeps sign and nullity. *)
Lemma div_pos_neg (y c : Q) : 0 < c -> (y / c < 0 <-> y < 0).
Proof.
  intro Hc. split; intro H.
  - assert (E : y == (y / c) * c) by (field; lra).
    rewrite E. setoid_replace 0 with (0 * c) by ring.
    apply Qmult_lt_compat_r; assumption.
  - unfold Qdiv. setoid_replace 0 with (0 * / c) by ring.
    apply Qmult_lt_compat_r; [apply Qinv_lt_0_compat; exact Hc | exact H].
Qed.

Lemma div_pos_zero (y c : Q) : 0 < c -> (y / c == 0 <-> y == 0).
Proof.
  intro Hc. split; intro H.
  - assert (E : y == (y / c) * c) by (field; lra).
    rewrite E, H. ring.
  - rewrite H. field. lra.
Qed.

(** [a * (b / 100)] and [a * b / 100] are the same number. *)
Lemma mul_div_100 (a b : number) :
  (a * (b / Fin 100))%num =n= (a * b / Fin 100)%num.
Proof.
  assert (H100 : 0 < 100) by reflexivity.
  destruct a as [|x|s], b as [|y|t]; try exact I.
  - change (Fin (x * (y / 100)) =n= Fin (x * y / 100)). simpl. field.
  - assert (E : (Inf t / Fin 100)%num = Inf t) by (now destruct t).
    rewrite E. unfold Num.mul.
    destruct (Qeq_bool x 0); [exact I|].
    now destruct t, (Num.is_neg x).
  - change (Inf s * Fin (y / 100) =n= Inf s * Fin y / Fin 100)%num.
    unfold Num.mul.
    rewrite (Qeq_bool_compat (y / 100) y) by (apply div_pos_zero; exact H100).
    rewrite (is_neg_compat (y / 100) y) by (apply div_pos_neg; exact H100).
    destruct (Qeq_bool y 0); [exact I|].
    now destruct s, (Num.is_neg y).
  - now destruct s, t.
Qed.

End NumArith.

(** The three guards of [calculateDividends], one at a time. *)
Lemma calculateDividends_guard (investment sharePrice dividendYield : number) :
  ((investment <=? Fin 0) || (sharePrice <=? Fin 0)
   || (dividendYield <=? Fin 0))%num = true ->
  calculateDividends investment sharePrice dividendYield = noIncome.
Proof.
  intro H. unfold calculateDividends. rewrite H. reflexivity.
Qed.

Lemma calculateDividends_pass (investment sharePrice dividendYield : number) :
  (investment <=? Fin 0)%num = false ->
  (sharePrice <=? Fin 0)%num = false ->
  (dividendYield <=? Fin 0)%num = false ->
  calculateDividends investment sharePrice dividendYield =
  let yearly := (investment * (dividendYield / Fin 100))%num in
  mkIncome yearly (yearly / Fin 4)%num (yearly / Fin 12)%num
           (yearly / Fin 365)%num.
Proof.
  intros H1 H2 H3. unfold calculateDividends. rewrite H1, H2, H3. reflexivity.
Qed.

(** C4 (as amended): [calculateDividends] returns four zeros when the
    investment or the yield is [<= 0]; when neither is, and the share price
    is not [<= 0] either, the annual income is investment x yield / 100 and
    the quarterly, monthly and daily incomes are that figure divided by 4,
    12 and 365. *)
Theorem calculateDividends_projection
    (investment sharePrice dividendYield : number) :
  let r := calculateDividends investment sharePrice dividendYield in
  (((investment <=? Fin 0) || (dividendYield <=? Fin 0))%num = true ->
   r = noIncome)
  /\ (((investment <=? Fin 0) || (dividendYield <=? Fin 0))%num = false ->
      (sharePrice <=? Fin 0)%num = false ->
      annually r =n= (investment * dividendYield / Fin 100)%num
      /\ quarterly r = (annually r / Fin 4)%num
      /\ monthly r = (annually r / Fin 12)%num
      /\ daily r = (annually r / Fin 365)%num).
Proof.
  cbv zeta. split.
  - intro H. apply calculateDividends_guard.
    apply orb_true_iff in H. destruct H as [H|H]; rewrite H.
    + reflexivity.
    + now rewrite !orb_true_r.
  - intros H Hp. apply orb_false_iff in H. destruct H as [Hi Hy].
    rewrite (calculateDividends_pass _ _ _ Hi Hp Hy). cbv zeta. simpl.
    repeat split. apply NumArith.mul_div_100.
Qed.

Lemma calculateDividends_projection_witness :
  annually (calculateDividends (Fin 10000) (dec 785 1) (dec 348 2))
  =n= (Fin 10000 * dec 348 2 / Fin 100)%num.
Proof.
  apply (calculateDividends_projection (Fin 10000) (dec 785 1) (dec 348 2));
    reflexivity.
Defined.

(** The claim C4 without the share price fails: with a positive investment
    and a positive yield the income is still zero when the share price is 0. *)
Lemma calculateDividends_ignores_formula_at_zero_price :
  (Fin 10000 <=? Fin 0)%num = false
  /\ (dec 348 2 <=? Fin 0)%num = false
  /\ calculateDividends (Fin 10000) (Fin 0) (dec 348 2) = noIncome
  /\ ~ annually (calculateDividends (Fin 10000) (Fin 0) (dec 348 2))
       =n= (Fin 10000 * dec 348 2 / Fin 100)%num.
Proof.
  repeat split. vm_compute. discriminate.
Qed.

(** C10: with a positive investment and a positive yield, a share price
    [<= 0] makes all four periods zero. *)
Theorem calculateDividends_price_guard
    (investment sharePrice dividendYield : number) :
  (investment >? Fin 0)%num = true ->
  (dividendYield >? Fin 0)%num = true ->
  (sharePrice <=? Fin 0)%num = true ->
  calculateDividends investment sharePrice dividendYield = noIncome.
Proof.
  intros _ _ H. apply calculateDividends_guard.
  rewrite H. now rewrite orb_true_r.
Qed.

Lemma calculateDividends_price_guard_witness :
  calculateDividends (Fin 10000) (Fin 0) (dec 348 2) = noIncome.
Proof.
  apply (calculateDividends_price_guard (Fin 10000) (Fin 0) (dec 348 2));
    reflexivity.
Defined.

(** ** The yield calculator *)

Module NumCongr.

Lemma is_neg_eq (x x' : Q) : x == x' -> Num.is_neg x = Num.is_neg x'.
Proof.
  intro E. apply NumArith.is_neg_compat. now rewrite E.
Qed.

Lemma is_zero_eq (x x' : Q) : x == x' -> Qeq_bool x 0 = Qeq_bool x' 0.
Proof.
  intro E. apply NumArith.Qeq_bool_compat. now rewrite E.
Qed.

Lemma add_eq_l (a a' b : number) : a =n= a' -> (a + b)%num =n= (a' + b)%num.
Proof.
  destruct a as [|x|s], a' as [|x'|s'], b as [|y|t]; simpl;
    try tauto; try congruence.
  - intro E. now rewrite E.
  - intros ->. destruct (Bool.eqb s' t); simpl; auto.
Qed.

Lemma mul_eq_l (a a' b : number) : a =n= a' -> (a * b)%num =n= (a' * b)%num.
Proof.
  destruct a as [|x|s], a' as [|x'|s'], b as [|y|t]; simpl;
    try tauto; try congruence.
  - intro E. now rewrite E.
  - intro E. rewrite (is_zero_eq _ _ E), (is_neg_eq _ _ E).
    destruct (Qeq_bool x' 0); simpl; auto.
  - intros ->. destruct (Qeq_bool y 0); simpl; auto.
Qed.

Lemma div_eq_l (a a' b : number) : a =n= a' -> (a / b)%num =n= (a' / b)%num.
Proof.
  destruct a as [|x|s], a' as [|x'|s'], b as [|y|t]; simpl;
    try tauto; try congruence.
  intro E. rewrite (is_zero_eq _ _ E), (is_neg_eq _ _ E).
  destruct (Qeq_bool y 0), (Qeq_bool x' 0); simpl; auto.
  all: now rewrite E.
Qed.

Lemma add_0_l (a : number) : (Fin 0 + a)%num =n= a.
Proof. destruct a; simpl; auto. ring. Qed.

End NumCongr.

Module YieldFacts.

Lemma add_nonneg (a b : number) :
  (a >=? Fin 0)%num = true -> (b >=? Fin 0)%num = true ->
  (a + b >=? Fin 0)%num = true.
Proof.
  intros Ha Hb.
  destruct (NumFacts.ge0_cases a Ha) as [[x [-> Hx]]| ->];
    destruct (NumFacts.ge0_cases b Hb) as [[y [-> Hy]]| ->];
    try reflexivity.
  simpl. apply Qle_bool_iff. lra.
Qed.

Lemma fold_nonneg (l : list DividendData) : forall acc,
  (acc >=? Fin 0)%num = true -> Forall nonNegative l ->
  (fold_left (fun acc curr => (acc + dividend curr)%num) l acc >=? Fin 0)%num
  = true.
Proof.
  induction l as [|d l IH]; intros acc Hacc Hl; simpl.
  - exact Hacc.
  - inversion Hl; subst. apply IH; [|assumption].
    now apply add_nonneg.
Qed.

Lemma sumDividends_nonneg (l : list DividendData) :
  Forall nonNegative l -> (sumDividends l >=? Fin 0)%num = true.
Proof. intro H. now apply fold_nonneg. Qed.

Lemma sumDividends_four (a b c d : DividendData) :
  sumDividends [a; b; c; d]
  =n= (dividend a + dividend b + dividend c + dividend d)%num.
Proof.
  unfold sumDividends. simpl.
  repeat apply NumCongr.add_eq_l. apply NumCongr.add_0_l.
Qed.

Lemma pastDividends_In parseDate history today d :
  In d (pastDividends parseDate history today) <->
  In d history
  /\ (DateObj.valueOf (parseDate (date d)) <=? Num.of_Z today)%num = true.
Proof. unfold pastDividends. apply filter_In. Qed.

Lemma past_nonneg parseDate history today :
  Forall nonNegative history ->
  Forall nonNegative (pastDividends parseDate history today).
Proof.
  rewrite !Forall_forall. intros H d Hd.
  apply pastDividends_In in Hd. now apply H.
Qed.

Lemma firstn_nonneg n (l : list DividendData) :
  Forall nonNegative l -> Forall nonNegative (firstn n l).
Proof.
  revert l. induction n as [|n IH]; intros l H; simpl.
  - constructor.
  - destruct l as [|d l]; [constructor|].
    inversion H; subst. constructor; auto.
Qed.

Lemma annual_nonneg method history past :
  Forall nonNegative history -> Forall nonNegative past ->
  (annualDividendPerShare method history past >=? Fin 0)%num = true.
Proof.
  intros Hh Hp. destruct method; unfold annualDividendPerShare.
  - destruct history as [|d rest]; [reflexivity|].
    inversion Hh as [|? ? Hd _]; subst. unfold nonNegative in Hd.
    destruct (NumFacts.ge0_cases _ Hd) as [[x [E Hx]]|E]; rewrite E.
    + simpl. apply Qle_bool_iff. nra.
    + reflexivity.
  - destruct (4 <=? List.length past)%nat; [|reflexivity].
    apply sumDividends_nonneg. now apply firstn_nonneg.
Qed.

(** A number that is neither negative nor positive is zero. *)
Lemma nonneg_not_pos (a : number) :
  (a >=? Fin 0)%num = true -> (a >? Fin 0)%num = false -> a =n= Fin 0.
Proof.
  intros Hge Hgt.
  destruct (NumFacts.ge0_cases a Hge) as [[x [-> Hx]]| ->]; [|discriminate].
  simpl in *. apply NumFacts.Qlt_bool_false in Hgt. lra.
Qed.

Lemma zero_over_price (a price : number) :
  (price >? Fin 0)%num = true -> a =n= Fin 0 ->
  (a / price * Fin 100)%num =n= Fin 0.
Proof.
  intros Hp Ha.
  destruct a as [|x|s]; simpl in Ha; try contradiction.
  destruct (NumFacts.gt0_cases price Hp) as [[p [-> Hpos]]| ->].
  - unfold Num.div.
    assert (E : Qeq_bool p 0 = false) by (apply NumFacts.Qeq_bool_false; lra).
    rewrite E. simpl. rewrite Ha. field. lra.
  - reflexivity.
Qed.

Lemma yieldEffect_positive price method history past previous :
  (price >? Fin 0)%num = true ->
  yieldEffect price method history past previous =
  let annual := annualDividendPerShare method history past in
  if (annual >? Fin 0)%num then (annual / price * Fin 100)%num else Fin 0.
Proof. intro H. unfold yieldEffect. now rewrite H. Qed.

(** For a positive price and amounts that are not negative, the effect
    stores annual / price x 100. *)
Lemma yieldEffect_formula price method history past previous :
  (price >? Fin 0)%num = true ->
  Forall nonNegative history -> Forall nonNegative past ->
  yieldEffect price method history past previous
  =n= (annualDividendPerShare method history past / price * Fin 100)%num.
Proof.
  intros Hp Hh Hpast. rewrite (yieldEffect_positive _ _ _ _ _ Hp). cbv zeta.
  destruct (annualDividendPerShare method history past >? Fin 0)%num eqn:E.
  - apply NumFacts.eq_refl.
  - apply NumFacts.eq_sym, zero_over_price; [exact Hp|].
    apply nonneg_not_pos; [|exact E]. now apply annual_nonneg.
Qed.

End YieldFacts.

(** C1: for a price [> 0] (and amounts that are not negative, as the data
    model has them) [computeYield] returns annual / price x 100.  With the
    forward method the annual dividend is four times the first entry of the
    full history, whatever its date, and the yield is 0 for an empty
    history; with the trailing method it is the sum of the first four
    entries of [pastDividends], the entries of the history dated up to
    [asOf], and the yield is 0 when there are fewer than four of them.  The
    yield is 0 whenever the annual dividend is. *)
Theorem computeYield_positive_price
    (parseDate : string -> Date) (price : number) (method : YieldMethod)
    (history : list DividendData) (asOf : Z) (previous : number) :
  (price >? Fin 0)%num = true ->
  Forall nonNegative history ->
  let past := pastDividends parseDate history asOf in
  let y := computeYield parseDate price method history asOf previous in
  (forall d, In d past <->
             In d history
             /\ (DateObj.valueOf (parseDate (date d)) <=? Num.of_Z asOf)%num
                = true)
  /\ (method = forward ->
      (forall d rest, history = d :: rest ->
                      y =n= (dividend d * Fin 4 / price * Fin 100)%num)
      /\ (history = [] -> y = Fin 0))
  /\ (method = ttm ->
      (forall a b c d rest, past = a :: b :: c :: d :: rest ->
         y =n= ((dividend a + dividend b + dividend c + dividend d)
                / price * Fin 100)%num)
      /\ ((List.length past < 4)%nat -> y = Fin 0))
  /\ (annualDividendPerShare method history past =n= Fin 0 -> y = Fin 0).
Proof.
  intros Hp Hh past y.
  assert (Hpast : Forall nonNegative past) by now apply YieldFacts.past_nonneg.
  assert (Hy : y =n= (annualDividendPerShare method history past
                      / price * Fin 100)%num)
    by now apply YieldFacts.yieldEffect_formula.
  assert (Hy' : y = let annual := annualDividendPerShare method history past in
                    if (annual >? Fin 0)%num
                    then (annual / price * Fin 100)%num else Fin 0)
    by now apply YieldFacts.yieldEffect_positive.
  cbv zeta in Hy'.
  split; [intro d; apply YieldFacts.pastDividends_In|].
  split; [|split].
  - intros ->. split.
    + intros d rest ->. exact Hy.
    + intros ->. exact Hy'.
  - intros ->. split.
    + intros a b c d rest E.
      eapply NumFacts.eq_trans; [exact Hy|].
      apply NumCongr.mul_eq_l, NumCongr.div_eq_l.
      unfold annualDividendPerShare. rewrite E.
      apply YieldFacts.sumDividends_four.
    + intro L. rewrite Hy'. unfold annualDividendPerShare.
      apply Nat.leb_gt in L. rewrite L. reflexivity.
  - intro Z0. rewrite Hy'.
    destruct (annualDividendPerShare method history past) as [|q|s];
      simpl in Z0; try contradiction.
    simpl. replace (Num.Qlt_bool 0 q) with false; [reflexivity|].
    symmetry. apply NumFacts.Qlt_bool_false. lra.
Qed.

Lemma DIVIDEND_HISTORY_nonNegative : Forall nonNegative DIVIDEND_HISTORY.
Proof. repeat constructor. Qed.

Lemma computeYield_positive_price_witness :
  computeYield Sample.parseDate (dec 785 1) forward DIVIDEND_HISTORY may2025
               (dec 348 2)
  =n= (dec 26 2 * Fin 4 / dec 785 1 * Fin 100)%num
  /\ computeYield Sample.parseDate (dec 785 1) ttm DIVIDEND_HISTORY july2025
                  (dec 348 2)
     =n= ((dec 26 2 + dec 25 2 + dec 26 2 + dec 25 2) / dec 785 1 * Fin 100)%num.
Proof.
  split.
  - destruct (computeYield_positive_price Sample.parseDate (dec 785 1) forward
                DIVIDEND_HISTORY may2025 (dec 348 2) eq_refl
                DIVIDEND_HISTORY_nonNegative) as (_ & F & _).
    apply (proj1 (F eq_refl) _ _ eq_refl).
  - destruct (computeYield_positive_price Sample.parseDate (dec 785 1) ttm
                DIVIDEND_HISTORY july2025 (dec 348 2) eq_refl
                DIVIDEND_HISTORY_nonNegative) as (_ & _ & T & _).
    apply (proj1 (T eq_refl) _ _ _ _ _ eq_refl).
Defined.

(** With the history as it is, in May 2025 the forward yield uses the entry
    of 25 June 2025 although [pastDividends] leaves it out. *)
Example forward_uses_future_entry :
  hd_error (pastDividends Sample.parseDate DIVIDEND_HISTORY may2025)
  = Some (mkDividend "3/26/2025" (dec 25 2))
  /\ annualDividendPerShare forward DIVIDEND_HISTORY
       (pastDividends Sample.parseDate DIVIDEND_HISTORY may2025)
     = (dec 26 2 * Fin 4)%num.
Proof. split; reflexivity. Qed.

(** C5 (as amended): for a price [<= 0] the yield effect does not run: the
    yield keeps the value it had, whatever the method, the history and the
    date. *)
Theorem computeYield_nonpositive_price
    (parseDate : string -> Date) (price : number) (method : YieldMethod)
    (history : list DividendData) (asOf : Z) (previous : number) :
  (price <=? Fin 0)%num = true ->
  computeYield parseDate price method history asOf previous = previous.
Proof.
  intro H. unfold computeYield, yieldEffect.
  replace (price >? Fin 0)%num with false; [reflexivity|].
  destruct price as [|p|[|]]; simpl in *; try reflexivity; try discriminate.
  symmetry. apply NumFacts.Qlt_bool_false. now apply Qle_bool_iff.
Qed.

Lemma computeYield_nonpositive_price_witness :
  computeYield Sample.parseDate (Fin 0) forward DIVIDEND_HISTORY july2025
               (dec 348 2)
  = dec 348 2.
Proof.
  apply (computeYield_nonpositive_price Sample.parseDate (Fin 0) forward
           DIVIDEND_HISTORY july2025 (dec 348 2)).
  reflexivity.
Defined.

(** The claim C5 as stated fails on the initial state: the price 0 leaves
    the yield at 3.48, which is not 0. *)
Lemma computeYield_zero_price_not_zero :
  (Fin 0 <=? Fin 0)%num = true
  /\ computeYield Sample.parseDate (Fin 0) forward DIVIDEND_HISTORY july2025
                  (dec 348 2) = dec 348 2
  /\ ~ computeYield Sample.parseDate (Fin 0) forward DIVIDEND_HISTORY july2025
                    (dec 348 2) =n= Fin 0.
Proof.
  repeat split. vm_compute. discriminate.
Qed.

(** ** The price cache *)

Module CacheFacts.

Lemma ageInMinutes_of_Z (timestamp now : Z) :
  ageInMinutes now (Num.of_Z timestamp)
  = Fin ((inject_Z now + - inject_Z timestamp) / (1000 * 60)).
Proof. reflexivity. Qed.

Lemma cacheDuration_minutes (marketOpen : bool) :
  cacheDuration marketOpen =n= Fin (if marketOpen then 15 else 1440).
Proof. destruct marketOpen; reflexivity. Qed.

(** The age of an entry, in minutes, against a bound. *)
Lemma age_below (timestamp now : Z) (d : Q) :
  (ageInMinutes now (Num.of_Z timestamp) <? Fin d)%num = true
  <-> inject_Z (now - timestamp) / 60000 < d.
Proof.
  rewrite ageInMinutes_of_Z. cbn [Num.lt]. rewrite NumFacts.Qlt_bool_iff.
  unfold Z.sub. rewrite inject_Z_plus, inject_Z_opp.
  assert (E : forall x, x / (1000 * 60) == x * (1 # 60000)) by (intro; field).
  assert (E' : forall x, x / 60000 == x * (1 # 60000)) by (intro; field).
  rewrite E, E'. reflexivity.
Qed.

Lemma minutes_ms (timestamp now d : Z) :
  inject_Z (now - timestamp) / 60000 < inject_Z d
  <-> (now - timestamp < d * 60000)%Z.
Proof.
  rewrite Zlt_Qlt, inject_Z_mult. change (inject_Z 60000) with 60000.
  assert (E' : forall x, x / 60000 == x * (1 # 60000)) by (intro; field).
  rewrite E'. split; intro H; lra.
Qed.

(** The freshness test in milliseconds. *)
Lemma cacheFresh_ms (timestamp now : Z) (marketOpen : bool) :
  cacheFresh (Num.of_Z timestamp) now marketOpen
  = (now - timestamp <? (if marketOpen then 15 else 1440) * 60000)%Z.
Proof.
  apply eq_true_iff_eq. rewrite Z.ltb_lt, <- minutes_ms.
  unfold cacheFresh.
  destruct marketOpen; [apply (age_below _ _ 15)|].
  change (cacheDuration false) with (Fin (24 * 60)).
  rewrite age_below. change (inject_Z 1440) with 1440.
  split; intro H; lra.
Qed.

(** An unparsable timestamp is never fresh. *)
Lemma cacheFresh_NaN (now : Z) (marketOpen : bool) :
  cacheFresh NaN now marketOpen = false.
Proof. reflexivity. Qed.

End CacheFacts.

(** C2: an entry fetched at [timestamp] is valid at [now] exactly when its
    age in minutes is below 15 with the market open and below 1440 with the
    market closed.  Open: 14 minutes is valid, 16 is not; closed: 23 hours
    is valid, 25 is not. *)
Theorem cacheFresh_threshold (timestamp now : Z) (marketOpen : bool) :
  (cacheFresh (Num.of_Z timestamp) now marketOpen = true
   <-> inject_Z (now - timestamp) / 60000 < (if marketOpen then 15 else 1440))
  /\ cacheFresh (Num.of_Z timestamp) (timestamp + 14 * 60000) true = true
  /\ cacheFresh (Num.of_Z timestamp) (timestamp + 16 * 60000) true = false
  /\ cacheFresh (Num.of_Z timestamp) (timestamp + 23 * 3600000) false = true
  /\ cacheFresh (Num.of_Z timestamp) (timestamp + 25 * 3600000) false = false.
Proof.
  split.
  - rewrite CacheFacts.cacheFresh_ms, Z.ltb_lt.
    rewrite <- CacheFacts.minutes_ms. now destruct marketOpen.
  - rewrite !CacheFacts.cacheFresh_ms. repeat split.
    + apply Z.ltb_lt. lia.
    + apply Z.ltb_ge. lia.
    + apply Z.ltb_lt. lia.
    + apply Z.ltb_ge. lia.
Qed.

(** At the boundary itself the entry is already stale. *)
Example cacheFresh_at_15_minutes :
  cacheFresh (Num.of_Z 1751328000000) (1751328000000 + 15 * 60000) true = false.
Proof. reflexivity. Qed.

Module ReadFacts.

(** When the early return is taken, and with what. *)
Lemma cachedPrice_Some toLocaleET ls now clock price :
  cachedPrice toLocaleET ls now clock = Some price <->
  exists cp ct,
    getItem ls CACHE_KEY_PRICE = Some cp /\ cp <> ""
    /\ getItem ls CACHE_KEY_TIMESTAMP = Some ct /\ ct <> ""
    /\ cacheFresh (Str.parseInt10 ct) now (isMarketOpen toLocaleET clock) = true
    /\ price = Str.parseFloat cp.
Proof.
  unfold cachedPrice, present. split.
  - destruct (getItem ls CACHE_KEY_PRICE) as [cp|]; [|discriminate].
    destruct (getItem ls CACHE_KEY_TIMESTAMP) as [ct|]; [|discriminate].
    destruct (String.eqb cp "") eqn:Ecp; [discriminate|].
    destruct (String.eqb ct "") eqn:Ect; [discriminate|].
    simpl.
    destruct (cacheFresh _ _ _) eqn:F; [|discriminate].
    intro H. inversion H; subst. exists cp, ct.
    apply String.eqb_neq in Ecp, Ect. auto 10.
  - intros (cp & ct & -> & Hcp & -> & Hct & F & ->).
    apply String.eqb_neq in Hcp, Hct. rewrite Hcp, Hct. simpl.
    now rewrite F.
Qed.

(** The state a fetch leaves does not depend on what the store held. *)
Lemma fetchSharePrice_state valueToString resp fetchedAt st st' ls ls' :
  fst (fetchSharePrice valueToString resp fetchedAt st ls)
  = fst (fetchSharePrice valueToString resp fetchedAt st' ls').
Proof.
  unfold fetchSharePrice.
  destruct resp as [r|]; simpl; [|reflexivity].
  destruct (ok r); simpl.
  - destruct (json r) as [data|]; simpl; [|reflexivity].
    destruct (Val.get data "price") as [price|]; simpl; [|reflexivity].
    destruct (Val.truthy price); reflexivity.
  - destruct (json r) as [data|]; simpl; [|reflexivity].
    destruct (Val.get data "error"); reflexivity.
Qed.

End ReadFacts.

(** C6 (as amended): the cache read gives nothing whenever one of the two
    keys is missing or holds the empty string, or the stored timestamp does
    not parse as a number, or the entry is too old; the run then goes to
    the fetch, whose resulting state owes nothing to the store. *)
Theorem cachedPrice_absent
    (valueToString : value -> string) (toLocaleET : Z -> completion Date)
    (ls : storage) (now clock : Z) :
  present (getItem ls CACHE_KEY_PRICE) = false
  \/ present (getItem ls CACHE_KEY_TIMESTAMP) = false
  \/ (exists ct, getItem ls CACHE_KEY_TIMESTAMP = Some ct
                 /\ (Str.parseInt10 ct = NaN
                     \/ cacheFresh (Str.parseInt10 ct) now
                          (isMarketOpen toLocaleET clock) = false)) ->
  cachedPrice toLocaleET ls now clock = None
  /\ forall resp fetchedAt st,
       managePriceFetch valueToString toLocaleET resp now clock fetchedAt st ls
       = fetchSharePrice valueToString resp fetchedAt st ls
       /\ forall st' ls',
            fst (managePriceFetch valueToString toLocaleET resp now clock
                                  fetchedAt st ls)
            = fst (fetchSharePrice valueToString resp fetchedAt st' ls').
Proof.
  intro H.
  assert (N : cachedPrice toLocaleET ls now clock = None).
  { destruct (cachedPrice toLocaleET ls now clock) as [p|] eqn:E; [|reflexivity].
    exfalso. apply ReadFacts.cachedPrice_Some in E.
    destruct E as (cp & ct & Ep & Hcp & Et & Hct & F & _).
    destruct H as [H|[H|(ct' & Et' & P)]].
    - rewrite Ep in H. simpl in H. apply negb_false_iff, String.eqb_eq in H.
      contradiction.
    - rewrite Et in H. simpl in H. apply negb_false_iff, String.eqb_eq in H.
      contradiction.
    - rewrite Et in Et'. inversion Et'; subst. destruct P as [P|P].
      + rewrite P, CacheFacts.cacheFresh_NaN in F. discriminate.
      + congruence. }
  split; [exact N|].
  intros resp fetchedAt st. unfold managePriceFetch. rewrite N.
  split; [reflexivity|]. intros st' ls'. apply ReadFacts.fetchSharePrice_state.
Qed.

Lemma cachedPrice_absent_witness :
  cachedPrice Sample.toLocaleET
    [(CACHE_KEY_PRICE, "78.5"); (CACHE_KEY_TIMESTAMP, "soon")]
    july2025 july2025 = None.
Proof.
  apply (cachedPrice_absent Sample.valueToString Sample.toLocaleET
           [(CACHE_KEY_PRICE, "78.5"); (CACHE_KEY_TIMESTAMP, "soon")]
           july2025 july2025).
  right. right. exists "soon". split; [reflexivity|left; reflexivity].
Defined.

(** The claim C6 as stated fails for the price key: a price string that
    does not parse, stored one minute ago, is taken as the share price (as
    [NaN]) and no fetch runs, although the endpoint would have answered
    78.5. *)
Lemma cachedPrice_unparsable_price_used :
  let ls := [(CACHE_KEY_PRICE, "$78.50");
             (CACHE_KEY_TIMESTAMP, "1751328000000")] in
  let now := (july2025 + 60000)%Z in
  let resp :=
    Normal (mkResponse 200 (Normal (VObj [("price", VNum (dec 785 1))]))) in
  let st := mkPriceState (VNum (dec 785 1)) true None in
  Str.parseFloat "$78.50" = NaN
  /\ cachedPrice Sample.toLocaleET ls now now = Some NaN
  /\ managePriceFetch Sample.valueToString Sample.toLocaleET resp now now now
       st ls
     = (mkPriceState (VNum NaN) false None, ls)
  /\ fst (fetchSharePrice Sample.valueToString resp now st ls)
     = mkPriceState (VNum (dec 785 1)) false None.
Proof. repeat split. Qed.

(** ** The market-hours oracle *)

Module MarketFacts.

Import DateObj.

Lemma weekday_range t : (0 <= WeekDay t < 7)%Z.
Proof. unfold WeekDay. apply Z.mod_pos_bound. lia. Qed.

(** The body of the [try] on a valid date, over the integers. *)
Lemma isMarketOpen_valid toLocaleET now t :
  toLocaleET now = Normal (DateAt t) ->
  isMarketOpen toLocaleET now
  = (negb ((WeekDay t =? 0) || (WeekDay t =? 6))
     && ((570 <=? HourFromTime t * 60 + MinFromTime t)
         && (HourFromTime t * 60 + MinFromTime t <? 960)))%Z.
Proof.
  intro E. unfold isMarketOpen. rewrite E.
  cbn [bind try_catch getDay getHours getMinutes field].
  change (Fin 0) with (Num.of_Z 0). change (Fin 6) with (Num.of_Z 6).
  rewrite !NumFacts.strict_eq_of_Z.
  destruct ((WeekDay t =? 0) || (WeekDay t =? 6))%Z; [reflexivity|].
  cbn [try_catch negb andb].
  assert (T : (Num.of_Z (HourFromTime t) * Fin 60
               + Num.of_Z (MinFromTime t))%num
              =n= Num.of_Z (HourFromTime t * 60 + MinFromTime t)).
  { simpl. rewrite inject_Z_plus, inject_Z_mult. reflexivity. }
  set (tim := (Num.of_Z (HourFromTime t) * Fin 60
               + Num.of_Z (MinFromTime t))%num) in *.
  destruct tim as [|q|s]; simpl in T; try contradiction.
  f_equal; apply eq_true_iff_eq.
  - change (Qle_bool (9 * 60 + 30) q = true
            <-> (570 <=? HourFromTime t * 60 + MinFromTime t)%Z = true).
    rewrite Qle_bool_iff, Z.leb_le, Zle_Qle, <- T. reflexivity.
  - change (Num.Qlt_bool q (16 * 60) = true
            <-> (HourFromTime t * 60 + MinFromTime t <? 960)%Z = true).
    rewrite NumFacts.Qlt_bool_iff, Z.ltb_lt, Zlt_Qlt, <- T. reflexivity.
Qed.

End MarketFacts.

(** C7: [isMarketOpen] gives an answer for every instant and every outcome
    of the conversion to New York time, and never throws.  On a converted
    date the answer is true exactly when the day is Monday to Friday and
    the time of day is in [09:30, 16:00); when the conversion throws the
    answer is true; on an Invalid Date it is false. *)
Theorem isMarketOpen_hours (toLocaleET : Z -> completion Date) (now : Z) :
  (toLocaleET now = Throw -> isMarketOpen toLocaleET now = true)
  /\ (forall t, toLocaleET now = Normal (DateAt t) ->
        (isMarketOpen toLocaleET now = true <->
         (1 <= DateObj.WeekDay t <= 5
          /\ 9 * 60 + 30 <= DateObj.HourFromTime t * 60 + DateObj.MinFromTime t
             < 16 * 60)%Z))
  /\ (toLocaleET now = Normal InvalidDate ->
      isMarketOpen toLocaleET now = false).
Proof.
  split; [|split].
  - intro E. unfold isMarketOpen. now rewrite E.
  - intros t E. rewrite (MarketFacts.isMarketOpen_valid _ _ _ E).
    pose proof (MarketFacts.weekday_range t) as R.
    rewrite !andb_true_iff, negb_true_iff, orb_false_iff, !Z.eqb_neq,
      Z.leb_le, Z.ltb_lt.
    lia.
  - intro E. unfold isMarketOpen. now rewrite E.
Qed.

Lemma isMarketOpen_hours_witness :
  isMarketOpen Sample.toLocaleET 1750861800000 = true
  /\ isMarketOpen (fun _ => Throw) 1750861800000 = true.
Proof.
  split.
  - apply (proj1 (proj2 (isMarketOpen_hours Sample.toLocaleET 1750861800000))
             _ eq_refl).
    vm_compute. repeat split; discriminate.
  - apply (proj1 (isMarketOpen_hours (fun _ => Throw) 1750861800000)).
    reflexivity.
Defined.

(** Wednesday 25 June 2025: open at 09:30 and at 15:59 New York standard
    time, closed at 09:29 and at 16:00, and closed on the Saturday after. *)
Example isMarketOpen_edges :
  let open_ := isMarketOpen Sample.toLocaleET in
  open_ (1750809600000 + (14 * 60 + 30) * 60000)%Z = true
  /\ open_ (1750809600000 + (14 * 60 + 29) * 60000)%Z = false
  /\ open_ (1750809600000 + (20 * 60 + 59) * 60000)%Z = true
  /\ open_ (1750809600000 + 21 * 60 * 60000)%Z = false
  /\ open_ (1750809600000 + 3 * 86400000 + 17 * 60 * 60000)%Z = false.
Proof. repeat split. Qed.

(** ** The growth statistic *)

Module FixedFacts.

Lemma headNotN_not_NA (s : string) : headNotN s -> s <> "N/A".
Proof. intros (c & r & -> & Hc) E. inversion E. contradiction. Qed.

Lemma headNotN_app (s r : string) : headNotN s -> headNotN (s ++ r).
Proof. intros (c & t & -> & Hc). exists c, (t ++ r). now split. Qed.

Lemma digit_char_not_N (d : nat) :
  (d < 10)%nat -> ascii_of_nat (d + 48) <> "N"%char.
Proof.
  intro H. do 10 (destruct d as [|d]; [discriminate|]). lia.
Qed.

Lemma digit_of_mod (n : Z) :
  ascii_of_nat (Z.to_nat (n mod 10) + 48) <> "N"%char.
Proof.
  apply digit_char_not_N.
  pose proof (Z.mod_pos_bound n 10 ltac:(lia)). lia.
Qed.

Lemma digits_fuel_head (fuel : nat) : forall n acc,
  headNotN acc -> headNotN (Str.digits_fuel fuel n acc).
Proof.
  induction fuel as [|f IH]; intros n acc H; simpl; [exact H|].
  assert (H' : headNotN (String (ascii_of_nat (Z.to_nat (n mod 10) + 48)) acc)).
  { eexists _, _. split; [reflexivity|apply digit_of_mod]. }
  destruct (n <? 10)%Z; [exact H'|]. now apply IH.
Qed.

Lemma digits_of_head (n : Z) : headNotN (Str.digits_of n).
Proof.
  unfold Str.digits_of. simpl.
  assert (H' : headNotN (String (ascii_of_nat (Z.to_nat (n mod 10) + 48)) "")).
  { eexists _, _. split; [reflexivity|apply digit_of_mod]. }
  destruct (n <? 10)%Z; [exact H'|]. now apply digits_fuel_head.
Qed.

(** A prefix of such a string, followed by a point, is such a string. *)
Lemma prefix_point_head (m rest : string) (j : nat) :
  headNotN m -> headNotN (substring 0 j m ++ "." ++ rest).
Proof.
  intros (c & r & -> & Hc). destruct j as [|j]; simpl.
  - eexists _, _. split; [reflexivity|discriminate].
  - eexists _, _. split; [reflexivity|exact Hc].
Qed.

Lemma minus_head (s : string) : headNotN ("-" ++ s).
Proof. eexists _, _. split; [reflexivity|discriminate]. Qed.

(** [toFixed(2)] never prints "N/A", provided [String(x)] never does. *)
Lemma toFixed2_not_NA valueToString (x : number) :
  (forall n, valueToString (VNum n) <> "N/A") ->
  toFixed2 valueToString x <> "N/A".
Proof.
  intro Hs. unfold toFixed2, numberToString.
  destruct x as [|q|s]; try apply Hs.
  destruct (Qle_bool (inject_Z (10 ^ 21)) (Qabs q)).
  - destruct (Num.is_neg q).
    + apply headNotN_not_NA, minus_head.
    + apply Hs.
  - set (m0 := Str.digits_of (Qfloor (Qabs q * 100 + (1 # 2)))).
    assert (H0 : headNotN m0) by apply digits_of_head.
    set (m := match String.length m0 with
              | 1%nat => "00" ++ m0
              | 2%nat => "0" ++ m0
              | _ => m0
              end).
    assert (Hm : headNotN m).
    { subst m. destruct (String.length m0) as [|[|[|k]]]; try exact H0.
      - eexists _, _. split; [reflexivity|discriminate].
      - eexists _, _. split; [reflexivity|discriminate]. }
    apply headNotN_not_NA.
    destruct (Num.is_neg q); [apply minus_head|].
    now apply prefix_point_head.
Qed.

Lemma printQ_head (q : Q) : headNotN (Sample.printQ q).
Proof.
  unfold Sample.printQ.
  set (ip := Str.digits_of _).
  assert (Hip : headNotN ip) by apply digits_of_head.
  destruct (Sample.trimZeros 6 _) as [w fp].
  destruct (Num.is_neg q).
  - destruct w; apply minus_head.
  - destruct w; [exact Hip|]. exact (headNotN_app ip _ Hip).
Qed.

Lemma sample_not_NA (n : number) : Sample.valueToString (VNum n) <> "N/A".
Proof.
  destruct n as [|q|[|]]; try discriminate.
  apply headNotN_not_NA, printQ_head.
Qed.

Lemma strict_eq_zero (a : number) :
  (a === Fin 0)%num = true <-> a =n= Fin 0.
Proof.
  destruct a as [|q|s]; simpl; try (split; [discriminate|tauto]).
  apply Qeq_bool_iff.
Qed.

End FixedFacts.

(** C8: the growth statistic is "N/A" exactly when there are fewer than
    eight past dividends or the four before the latest four sum to 0, and
    with exactly seven it is "N/A"; otherwise it is
    (latest four - prior four) / prior four x 100, printed with two
    decimals. *)
Theorem dividendGrowth_available
    (valueToString : value -> string) (past : list DividendData) :
  (forall n, valueToString (VNum n) <> "N/A") ->
  let lastYear := sumDividends (firstn 4 past) in
  let prevYear := sumDividends (firstn 4 (skipn 4 past)) in
  (dividendGrowth valueToString past = "N/A"
   <-> (List.length past < 8)%nat \/ prevYear =n= Fin 0)
  /\ (~ ((List.length past < 8)%nat \/ prevYear =n= Fin 0) ->
      dividendGrowth valueToString past
      = toFixed2 valueToString
          ((lastYear - prevYear) / prevYear * Fin 100)%num)
  /\ (List.length past = 7%nat -> dividendGrowth valueToString past = "N/A").
Proof.
  intros Hs lastYear prevYear.
  unfold dividendGrowth. fold lastYear prevYear.
  destruct (List.length past <? 8)%nat eqn:L.
  - apply Nat.ltb_lt in L. repeat split; auto. tauto.
  - apply Nat.ltb_ge in L.
    destruct (prevYear === Fin 0)%num eqn:P.
    + apply FixedFacts.strict_eq_zero in P. repeat split; auto. tauto.
    + assert (NP : ~ prevYear =n= Fin 0)
        by (rewrite <- FixedFacts.strict_eq_zero; congruence).
      split; [|split].
      * split.
        -- intro E. exfalso. revert E. now apply FixedFacts.toFixed2_not_NA.
        -- intros [H|H]; [lia|contradiction].
      * reflexivity.
      * intro; lia.
Qed.

Lemma dividendGrowth_available_witness :
  dividendGrowth Sample.valueToString
    (pastDividends Sample.parseDate DIVIDEND_HISTORY july2025)
  = toFixed2 Sample.valueToString
      ((sumDividends (firstn 4 DIVIDEND_HISTORY)
        - sumDividends (firstn 4 (skipn 4 DIVIDEND_HISTORY)))
       / sumDividends (firstn 4 (skipn 4 DIVIDEND_HISTORY)) * Fin 100)%num.
Proof.
  apply (proj1 (proj2 (dividendGrowth_available Sample.valueToString
                         (pastDividends Sample.parseDate DIVIDEND_HISTORY
                                        july2025)
                         FixedFacts.sample_not_NA))).
  intros [H|H]; vm_compute in H; [lia|discriminate H].
Defined.

(** The dataset in July 2025 grew 8.51 %; cut to seven past entries there
    is no figure. *)
Example dividendGrowth_dataset :
  dividendGrowth Sample.valueToString
    (pastDividends Sample.parseDate DIVIDEND_HISTORY july2025) = "8.51"
  /\ dividendGrowth Sample.valueToString (firstn 7 DIVIDEND_HISTORY) = "N/A".
Proof. split; reflexivity. Qed.

(** ** The price fetcher *)

Module FetchFacts.

Section Client.

Variable valueToString : value -> string.
Variables (now : Z) (st : PriceState) (ls : storage).

Lemma fetchSharePrice_failure resp :
  fetchFailure resp ->
  fetchSharePrice valueToString resp now st ls = (fallbackState, ls).
Proof.
  intro F. unfold fetchSharePrice.
  destruct F as [|r H|r H|r data H G|r data v H G T]; simpl.
  - reflexivity.
  - rewrite H. simpl. destruct (json r) as [e|]; simpl; [|reflexivity].
    destruct (Val.get e "error"); reflexivity.
  - rewrite H. destruct (ok r); reflexivity.
  - rewrite H. destruct (ok r); simpl.
    + rewrite G. reflexivity.
    + destruct (Val.get data "error"); reflexivity.
  - rewrite H. destruct (ok r); simpl.
    + rewrite G. simpl. rewrite T. reflexivity.
    + destruct (Val.get data "error"); reflexivity.
Qed.

Lemma fetchSharePrice_success r data v :
  ok r = true -> json r = Normal data ->
  Val.get data "price" = Normal v -> Val.truthy v = true ->
  fetchSharePrice valueToString (Normal r) now st ls
  = (mkPriceState v false None,
     setItem (setItem ls CACHE_KEY_PRICE (valueToString v))
             CACHE_KEY_TIMESTAMP
             (numberToString valueToString (Num.of_Z now))).
Proof.
  intros O J G T. unfold fetchSharePrice. simpl.
  rewrite O, J. simpl. rewrite G. simpl. rewrite T. reflexivity.
Qed.

End Client.

Lemma supplies_not_failure upstream q :
  supplies upstream q -> ~ providerFailure upstream.
Proof.
  intros S F. destruct S as [r data q O J G P].
  inversion F as [|r' H|r' H|r' d H G'|r' d v H G' N|r' d n H G' N]; subst.
  - congruence.
  - congruence.
  - rewrite J in H. inversion H; subst. congruence.
  - rewrite J in H. inversion H; subst. rewrite G in G'.
    inversion G'; subst. discriminate.
  - rewrite J in H. inversion H; subst. rewrite G in G'.
    inversion G'; subst. simpl in N. apply Qle_bool_iff in N. lra.
Qed.

(** What the function answers, and how the browser takes it. *)
Lemma handler_cases apiKey upstream :
  (exists q, present apiKey = true /\ supplies upstream q
             /\ handler apiKey upstream
                = mkResult 200 (VObj [("price", VNum (Fin q))]))
  \/ ((present apiKey = false \/ ~ exists q, supplies upstream q)
      /\ fetchFailure (Normal (served (handler apiKey upstream)))).
Proof.
  unfold handler.
  destruct (present apiKey) eqn:K; simpl;
    [|right; split; [now left|now apply nonOkStatus]].
  assert (F500 : forall msg,
             fetchFailure (Normal (served (mkResult 500 (errorBody msg)))))
    by (intro msg; now apply nonOkStatus).
  destruct upstream as [r|]; simpl.
  2:{ right. split; [right; intros [q S]; inversion S|apply F500]. }
  destruct (ok r) eqn:O; simpl.
  2:{ right. split; [right; intros [q S]; inversion S; congruence|].
      apply nonOkStatus. exact O. }
  destruct (json r) as [data|] eqn:J; simpl.
  2:{ right. split; [right; intros [q S]; inversion S; congruence|apply F500]. }
  destruct (Val.get data "c") as [c|] eqn:G; simpl.
  2:{ right. split; [right; intros [q S]; inversion S; congruence|apply F500]. }
  destruct c as [| |b|n|s|l|fs];
    try (right; split;
         [right; intros [q S]; inversion S; congruence|apply F500]).
  destruct (n <=? Fin 0)%num eqn:L; simpl.
  - right. split; [|apply F500].
    right. intros [q S]. inversion S as [r' d q' O' J' G' P]; subst.
    assert (E : n = Fin q) by congruence. subst n.
    simpl in L. apply Qle_bool_iff in L. lra.
  - destruct n as [|q|[|]]; try discriminate L.
    + right. split; [right; intros [q S]; inversion S; congruence|].
      now eapply falsyPrice.
    + left. exists q. repeat split.
      econstructor; eauto. simpl in L.
      now apply NumFacts.Qle_bool_false in L.
    + right. split; [right; intros [q S]; inversion S; congruence|].
      now eapply falsyPrice.
Qed.

Lemma providerFailure_not_supplies upstream :
  providerFailure upstream -> ~ exists q, supplies upstream q.
Proof. intros F [q S]. exact (supplies_not_failure _ _ S F). Qed.

End FetchFacts.

Module FetchEnd.

(** The browser's fetch against the repository's function. *)
Lemma live_price valueToString now st ls apiKey upstream q :
  handler apiKey upstream = mkResult 200 (VObj [("price", VNum (Fin q))]) ->
  0 < q ->
  fetchSharePrice valueToString (Normal (served (handler apiKey upstream)))
                  now st ls
  = (mkPriceState (VNum (Fin q)) false None,
     setItem (setItem ls CACHE_KEY_PRICE (valueToString (VNum (Fin q))))
             CACHE_KEY_TIMESTAMP
             (numberToString valueToString (Num.of_Z now))).
Proof.
  intros H P. rewrite H.
  apply (FetchFacts.fetchSharePrice_success valueToString now st ls
           _ (VObj [("price", VNum (Fin q))]) (VNum (Fin q)));
    try reflexivity.
  simpl. apply negb_true_iff, NumFacts.Qeq_bool_false. lra.
Qed.

End FetchEnd.

(** C3: every failed fetch ends in the fallback state: the share price is
    27 and the error message is set, whatever the price was before.  That
    holds for any answer of the endpoint that throws, is not 2xx, is not
    JSON or carries no price; and, through the repository's function, for
    every failure of the data provider, including a price field that is
    not a number or not greater than 0.  The fetch through the function
    yields a price exactly when the function has its key and the provider
    supplies a number greater than 0, and that number is the price. *)
Theorem fetch_price_or_fallback
    (valueToString : value -> string) (now : Z) (st : PriceState)
    (ls : storage) :
  (forall resp, fetchFailure resp ->
     fetchSharePrice valueToString resp now st ls = (fallbackState, ls))
  /\ forall apiKey upstream,
       let out := fetchSharePrice valueToString
                    (Normal (served (handler apiKey upstream))) now st ls in
       (providerFailure upstream -> out = (fallbackState, ls))
       /\ (present apiKey = false -> out = (fallbackState, ls))
       /\ (forall q, present apiKey = true /\ supplies upstream q
                     <-> fst out = mkPriceState (VNum (Fin q)) false None)
       /\ (out = (fallbackState, ls)
           \/ exists q, 0 < q
                        /\ fst out = mkPriceState (VNum (Fin q)) false None).
Proof.
  split; [intros resp F; now apply FetchFacts.fetchSharePrice_failure|].
  intros apiKey upstream out.
  assert (Pos : forall q, supplies upstream q -> 0 < q)
    by (intros q S; now destruct S).
  destruct (FetchFacts.handler_cases apiKey upstream)
    as [(q0 & K & S & H)|(N & F)].
  - assert (E : fst out = mkPriceState (VNum (Fin q0)) false None).
    { subst out. rewrite (FetchEnd.live_price _ _ _ _ _ _ _ H (Pos _ S)).
      reflexivity. }
    split; [|split; [|split]].
    + intro PF. exfalso. exact (FetchFacts.supplies_not_failure _ _ S PF).
    + congruence.
    + intro q. rewrite E. split.
      * intros [_ S']. destruct S as [r d q0 O J G P].
        inversion S' as [r' d' q' O' J' G' P']; subst.
        assert (Eq : Fin q0 = Fin q) by congruence.
        inversion Eq; subst. reflexivity.
      * intro Eq. inversion Eq; subst. split; assumption.
    + right. exists q0. auto.
  - assert (E : out = (fallbackState, ls))
      by (subst out; now apply FetchFacts.fetchSharePrice_failure).
    split; [|split; [|split]]; auto.
    intro q. rewrite E. split.
    + intros [K S]. exfalso. destruct N as [N|N]; [congruence|].
      apply N. now exists q.
    + discriminate.
Qed.

(** An answer of status 500 from the function, and a provider whose
    price is 0. *)
Lemma fetch_price_or_fallback_witness :
  fetchSharePrice Sample.valueToString
    (Normal (mkResponse 500 (Normal (errorBody "An internal error occurred."))))
    july2025 (mkPriceState (VNum (dec 785 1)) true None) []
  = (fallbackState, [])
  /\ fetchSharePrice Sample.valueToString
       (Normal (served (handler (Some "key")
          (Normal (mkResponse 200 (Normal (VObj [("c", VNum (Fin 0))])))))))
       july2025 (mkPriceState (VNum (dec 785 1)) true None) []
     = (fallbackState, []).
Proof.
  split.
  - apply (proj1 (fetch_price_or_fallback Sample.valueToString july2025
                    (mkPriceState (VNum (dec 785 1)) true None) [])).
    now apply nonOkStatus.
  - apply (proj1 (proj2 (fetch_price_or_fallback Sample.valueToString july2025
                           (mkPriceState (VNum (dec 785 1)) true None) [])
                    (Some "key")
                    (Normal (mkResponse 200
                               (Normal (VObj [("c", VNum (Fin 0))])))))).
    now eapply providerNotPositive.
Defined.

(** A provider quoting 27.31 gives that price and fills the cache. *)
Example fetch_live_price :
  fetchSharePrice Sample.valueToString
    (Normal (served (handler (Some "key")
       (Normal (mkResponse 200 (Normal (VObj [("c", VNum (dec 2731 2))])))))))
    july2025 (mkPriceState (VNum (dec 785 1)) true None) []
  = (mkPriceState (VNum (dec 2731 2)) false None,
     [(CACHE_KEY_PRICE, "27.31"); (CACHE_KEY_TIMESTAMP, "1751328000000")]).
Proof. reflexivity. Qed.

(** The browser alone tests the price for truthiness only: it is the
    function that refuses what is not a number greater than 0. *)
Example browser_accepts_truthy_price :
  fst (fetchSharePrice Sample.valueToString
         (Normal (mkResponse 200 (Normal (VObj [("price", VNum (Fin (-5)))]))))
         july2025 (mkPriceState (VNum (dec 785 1)) true None) [])
  = mkPriceState (VNum (Fin (-5))) false None
  /\ statusCode (handler (Some "key")
       (Normal (mkResponse 200 (Normal (VObj [("c", VNum (Fin (-5)))])))))
     = 500%Z.
Proof. split; reflexivity. Qed.

(** ** End to end *)

(** C9: a history of sixteen entries or more whose latest entry pays 0.26,
    a price of 78.50 and the forward method give an annual dividend of
    1.04 and a yield of 1.04 / 78.50 x 100, about 1.32 %; 10000 invested at
    that yield gives about 132.48 a year, 33.12 a quarter, 11.04 a month
    and 0.36 a day. *)
Theorem forward_scenario
    (valueToString : value -> string) (parseDate : string -> Date)
    (history : list DividendData) (asOf : Z) (previous : number) :
  (16 <= List.length history)%nat ->
  (exists d rest, history = d :: rest /\ dividend d = dec 26 2) ->
  let price := dec 785 1 in
  let past := pastDividends parseDate history asOf in
  let y := computeYield parseDate price forward history asOf previous in
  let income := calculateDividends (Fin 10000) price y in
  annualDividendPerShare forward history past =n= dec 104 2
  /\ y =n= (dec 104 2 / dec 785 1 * Fin 100)%num
  /\ approx y (132 # 100)
  /\ toFixed2 valueToString y = "1.32"
  /\ (approx (annually income) (13248 # 100)
      /\ approx (quarterly income) (3312 # 100)
      /\ approx (monthly income) (1104 # 100)
      /\ approx (daily income) (36 # 100))
  /\ (toFixed2 valueToString (annually income) = "132.48"
      /\ toFixed2 valueToString (quarterly income) = "33.12"
      /\ toFixed2 valueToString (monthly income) = "11.04"
      /\ toFixed2 valueToString (daily income) = "0.36").
Proof.
  intros _ (d & rest & -> & Hd) price past y income.
  assert (Ey : y = (dec 26 2 * Fin 4 / dec 785 1 * Fin 100)%num).
  { subst y price. unfold computeYield, yieldEffect, annualDividendPerShare.
    rewrite Hd. reflexivity. }
  subst income. rewrite Ey. subst price.
  unfold annualDividendPerShare. rewrite Hd.
  repeat split; vm_compute; reflexivity.
Qed.

Lemma forward_scenario_witness :
  toFixed2 Sample.valueToString
    (annually (calculateDividends (Fin 10000) (dec 785 1)
       (computeYield Sample.parseDate (dec 785 1) forward DIVIDEND_HISTORY
                     july2025 (dec 348 2))))
  = "132.48".
Proof.
  refine (proj1 (proj2 (proj2 (proj2 (proj2 (proj2
    (forward_scenario Sample.valueToString Sample.parseDate DIVIDEND_HISTORY
       july2025 (dec 348 2) _ _))))))).
  - vm_compute. lia.
  - eexists _, _. split; reflexivity.
Defined.

Module Binary64Facts.

Import PrimFloat.
Local Open Scope float_scope.

(** The same scenario in binary64: 0.26 x 4 is the double 1.04 itself, and
    the yield and the four incomes round to the figures above. *)
Example forward_scenario_binary64 :
  let y := Binary64.yieldEffect 78.5 forward Binary64.DIVIDEND_HISTORY
             Binary64.DIVIDEND_HISTORY 3.48 in
  let '(annual, quarter, month, day) :=
    Binary64.calculateDividends 10000 78.5 y in
  (Binary64.annualDividendPerShare forward Binary64.DIVIDEND_HISTORY
                                   Binary64.DIVIDEND_HISTORY =? 1.04) = true
  /\ Binary64.within 1.315 1.325 y = true
  /\ Binary64.within 132.475 132.485 annual = true
  /\ Binary64.within 33.115 33.125 quarter = true
  /\ Binary64.within 11.035 11.045 month = true
  /\ Binary64.within 0.355 0.365 day = true.
Proof. vm_compute. repeat split. Qed.

End Binary64Facts.

(** * Further properties *)

(** ** The annual dividend card and the income *)

(** The card shows "N/A" exactly when the method has no data to work on;
    otherwise it shows, with two decimals, the annual dividend the yield
    effect divides by the price; and whenever it shows "N/A" the yield
    stored for a positive price is 0. *)
Theorem annualDividendDisplay_basis
    (valueToString : value -> string) (method : YieldMethod)
    (history past : list DividendData) :
  let shown := annualDividendDisplay valueToString method history past in
  let noData := (method = forward /\ history = [])
                \/ (method = ttm /\ (List.length past < 4)%nat) in
  (displayValue shown = "N/A" <-> noData)
  /\ (displayValue shown = "N/A"
      \/ displayValue shown
         = "$" ++ toFixed2 valueToString
                    (annualDividendPerShare method history past))
  /\ (displayValue shown = "N/A" ->
      forall price previous,
        (price >? Fin 0)%num = true ->
        yieldEffect price method history past previous = Fin 0).
Proof.
  cbv zeta.
  assert (Z0 : forall price previous,
             (price >? Fin 0)%num = true ->
             annualDividendPerShare method history past = Fin 0 ->
             yieldEffect price method history past previous = Fin 0).
  { intros price previous Hp E. unfold yieldEffect. rewrite Hp, E.
    reflexivity. }
  unfold annualDividendDisplay. destruct method.
  - destruct history as [|d rest].
    + split; [|split].
      * split; auto.
      * now left.
      * intros _ price previous Hp. now apply Z0.
    + split; [|split].
      * split; [discriminate|]. intros [[_ H]|[H _]]; discriminate.
      * now right.
      * discriminate.
  - destruct (List.length past <? 4)%nat eqn:L.
    + pose proof L as L'. apply Nat.ltb_lt in L'. split; [|split].
      * split; auto.
      * now left.
      * intros _ price previous Hp. apply Z0; [exact Hp|].
        unfold annualDividendPerShare.
        now rewrite Nat.leb_antisym, L.
    + pose proof L as L'. apply Nat.ltb_ge in L'. split; [|split].
      * split; [discriminate|]. intros [[H _]|[_ H]]; [discriminate|lia].
      * right. unfold annualDividendPerShare.
        now rewrite Nat.leb_antisym, L.
      * discriminate.
Qed.

Lemma annualDividendDisplay_basis_witness :
  yieldEffect (dec 785 1) ttm DIVIDEND_HISTORY (firstn 3 DIVIDEND_HISTORY)
              (dec 348 2)
  = Fin 0.
Proof.
  apply (proj2 (proj2 (annualDividendDisplay_basis Sample.valueToString ttm
                         DIVIDEND_HISTORY (firstn 3 DIVIDEND_HISTORY))));
    reflexivity.
Defined.

Module IncomeFacts.

(** The yield the effect stores for a positive price and a positive annual
    dividend. *)
Lemma effect_value (p a : Q) (method : YieldMethod)
    (history past : list DividendData) (previous : number) :
  0 < p -> 0 < a ->
  annualDividendPerShare method history past = Fin a ->
  yieldEffect (Fin p) method history past previous = Fin (a / p * 100).
Proof.
  intros Hp Ha E.
  assert (P0 : Qeq_bool p 0 = false) by (apply NumFacts.Qeq_bool_false; lra).
  unfold yieldEffect. rewrite E.
  replace (Fin p >? Fin 0)%num with true
    by (symmetry; now apply NumFacts.Qlt_bool_iff).
  replace (Fin a >? Fin 0)%num with true
    by (symmetry; now apply NumFacts.Qlt_bool_iff).
  unfold Num.div. rewrite P0. reflexivity.
Qed.

Lemma yield_positive (p a : Q) : 0 < p -> 0 < a -> 0 < a / p * 100.
Proof.
  intros Hp Ha. apply Qmult_lt_0_compat; [|reflexivity].
  apply Qlt_shift_div_l; [exact Hp|]. lra.
Qed.

(** The annual income of the projector on positive inputs. *)
Lemma projection_value (i p y : Q) :
  0 < i -> 0 < p -> 0 < y ->
  annually (calculateDividends (Fin i) (Fin p) (Fin y)) = Fin (i * (y / 100)).
Proof.
  intros Hi Hp Hy. rewrite calculateDividends_pass.
  - reflexivity.
  - now apply NumFacts.Qle_bool_false.
  - now apply NumFacts.Qle_bool_false.
  - now apply NumFacts.Qle_bool_false.
Qed.

End IncomeFacts.

(** At a positive price, with a positive investment and a positive annual
    dividend per share, the projected annual income is the number of
    shares the investment buys times the annual dividend per share. *)
Theorem income_is_shares_times_dividend
    (i p a : Q) (method : YieldMethod) (history past : list DividendData)
    (previous : number) :
  0 < i -> 0 < p -> 0 < a ->
  annualDividendPerShare method history past = Fin a ->
  annually (calculateDividends (Fin i) (Fin p)
              (yieldEffect (Fin p) method history past previous))
  =n= Fin (i / p * a).
Proof.
  intros Hi Hp Ha E.
  rewrite (IncomeFacts.effect_value p a method history past previous Hp Ha E).
  rewrite (IncomeFacts.projection_value i p _ Hi Hp
             (IncomeFacts.yield_positive p a Hp Ha)).
  simpl. field. lra.
Qed.

Lemma income_is_shares_times_dividend_witness :
  annually (calculateDividends (Fin 10000) (Fin (785 # 10))
              (yieldEffect (Fin (785 # 10)) forward DIVIDEND_HISTORY []
                           (dec 348 2)))
  =n= Fin (10000 / (785 # 10) * ((26 # 100) * 4)).
Proof.
  apply (income_is_shares_times_dividend 10000 (785 # 10) ((26 # 100) * 4)
           forward DIVIDEND_HISTORY [] (dec 348 2));
    reflexivity.
Defined.

(** ** One load after another *)

Module LoadFacts.

Lemma getItem_setItem_same (ls : storage) (k v : string) :
  getItem (setItem ls k v) k = Some v.
Proof.
  induction ls as [|[k' v'] ls IH]; simpl.
  - now rewrite String.eqb_refl.
  - destruct (String.eqb k k') eqn:E; simpl.
    + now rewrite String.eqb_refl.
    + now rewrite E.
Qed.

Lemma getItem_setItem_other (ls : storage) (k k' v : string) :
  k <> k' -> getItem (setItem ls k v) k' = getItem ls k'.
Proof.
  intro N. induction ls as [|[k0 v0] ls IH]; simpl.
  - apply String.eqb_neq in N. rewrite String.eqb_sym in N. now rewrite N.
  - destruct (String.eqb k k0) eqn:E; simpl.
    + apply String.eqb_eq in E. subst k0.
      apply String.eqb_neq in N. rewrite String.eqb_sym in N. now rewrite N.
    + destruct (String.eqb k' k0); [reflexivity|exact IH].
Qed.


End LoadFacts.



(** A price fetched at [fetchedAt] is what the next load shows, without a
    fetch and whatever the network would answer, for the next 15 minutes;
    from 24 hours on the next load always fetches.  The price shown is the
    stored text parsed back. *)
Theorem fetched_price_served_from_cache
    (valueToString : value -> string) (toLocaleET : Z -> completion Date)
    (r : response) (data v : value) (fetchedAt : Z)
    (st : PriceState) (ls : storage) :
  ok r = true -> json r = Normal data ->
  Val.get data "price" = Normal v -> Val.truthy v = true ->
  valueToString v <> "" ->
  Str.parseInt10 (numberToString valueToString (Num.of_Z fetchedAt))
  = Num.of_Z fetchedAt ->
  let first := fetchSharePrice valueToString (Normal r) fetchedAt st ls in
  forall resp' now clock fetchedAt',
    ((now - fetchedAt < 15 * 60000)%Z ->
     managePriceFetch valueToString toLocaleET resp' now clock fetchedAt'
                      (fst first) (snd first)
     = (mkPriceState (VNum (Str.parseFloat (valueToString v))) false None,
        snd first))
    /\ ((1440 * 60000 <= now - fetchedAt)%Z ->
        managePriceFetch valueToString toLocaleET resp' now clock fetchedAt'
                         (fst first) (snd first)
        = fetchSharePrice valueToString resp' fetchedAt'
                          (fst first) (snd first)).
Proof.
  intros O J G T Hv Ht first resp' now clock fetchedAt'.
  subst first.
  rewrite (FetchFacts.fetchSharePrice_success _ _ _ _ _ _ _ O J G T).
  cbn [fst snd].
  set (ts := numberToString valueToString (Num.of_Z fetchedAt)) in *.
  set (ls1 := setItem (setItem ls CACHE_KEY_PRICE (valueToString v))
                      CACHE_KEY_TIMESTAMP ts).
  assert (Gp : getItem ls1 CACHE_KEY_PRICE = Some (valueToString v)).
  { subst ls1. rewrite LoadFacts.getItem_setItem_other by discriminate.
    apply LoadFacts.getItem_setItem_same. }
  assert (Gt : getItem ls1 CACHE_KEY_TIMESTAMP = Some ts)
    by apply LoadFacts.getItem_setItem_same.
  assert (Nt : ts <> "").
  { intro E. rewrite E in Ht. discriminate Ht. }
  assert (C : cachedPrice toLocaleET ls1 now clock
              = if cacheFresh (Num.of_Z fetchedAt) now
                     (isMarketOpen toLocaleET clock)
                then Some (Str.parseFloat (valueToString v)) else None).
  { unfold cachedPrice. rewrite Gp, Gt. unfold present.
    apply String.eqb_neq in Hv, Nt. rewrite Hv, Nt, Ht. reflexivity. }
  unfold managePriceFetch. rewrite C, CacheFacts.cacheFresh_ms.
  split; intro A.
  - replace (_ <? _)%Z with true; [reflexivity|].
    symmetry. apply Z.ltb_lt. destruct (isMarketOpen toLocaleET clock); lia.
  - replace (_ <? _)%Z with false; [reflexivity|].
    symmetry. apply Z.ltb_ge. destruct (isMarketOpen toLocaleET clock); lia.
Qed.

Lemma fetched_price_served_from_cache_witness :
  managePriceFetch Sample.valueToString Sample.toLocaleET Throw
    (july2025 + 60000) (july2025 + 60000) (july2025 + 60000)
    (mkPriceState (VNum (dec 2731 2)) false None)
    [(CACHE_KEY_PRICE, "27.31"); (CACHE_KEY_TIMESTAMP, "1751328000000")]
  = (mkPriceState (VNum (Str.parseFloat "27.31")) false None,
     [(CACHE_KEY_PRICE, "27.31"); (CACHE_KEY_TIMESTAMP, "1751328000000")]).
Proof.
  refine (proj1 (fetched_price_served_from_cache Sample.valueToString
                   Sample.toLocaleET
                   (mkResponse 200
                      (Normal (VObj [("price", VNum (dec 2731 2))])))
                   (VObj [("price", VNum (dec 2731 2))]) (VNum (dec 2731 2))
                   july2025 (mkPriceState (VNum (dec 785 1)) true None) []
                   eq_refl eq_refl eq_refl eq_refl _ eq_refl
                   Throw (july2025 + 60000)%Z (july2025 + 60000)%Z
                   (july2025 + 60000)%Z) _).
  - discriminate.
  - reflexivity.
Defined.

(** By age: an entry younger than 15 minutes is valid and one of 24 hours
    or more is not, whatever the market; in between it is valid exactly
    when the market is closed, so an entry found stale during trading is
    valid again after the close. *)
Theorem cacheFresh_by_age (timestamp now : Z) (marketOpen : bool) :
  ((now - timestamp < 15 * 60000)%Z ->
   cacheFresh (Num.of_Z timestamp) now marketOpen = true)
  /\ ((15 * 60000 <= now - timestamp < 1440 * 60000)%Z ->
      cacheFresh (Num.of_Z timestamp) now marketOpen = negb marketOpen)
  /\ ((1440 * 60000 <= now - timestamp)%Z ->
      cacheFresh (Num.of_Z timestamp) now marketOpen = false).
Proof.
  rewrite CacheFacts.cacheFresh_ms.
  repeat split; intro A; destruct marketOpen; simpl negb;
    first [apply Z.ltb_lt; lia | apply Z.ltb_ge; lia].
Qed.

Lemma cacheFresh_by_age_witness :
  cacheFresh (Num.of_Z july2025) (july2025 + 20 * 60000) true = false
  /\ cacheFresh (Num.of_Z july2025) (july2025 + 20 * 60000) false = true.
Proof.
  split.
  - apply (proj1 (proj2 (cacheFresh_by_age july2025 (july2025 + 20 * 60000)
                           true))).
    unfold july2025. lia.
  - apply (proj1 (proj2 (cacheFresh_by_age july2025 (july2025 + 20 * 60000)
                           false))).
    unfold july2025. lia.
Defined.

Module PastFacts.

Lemma filter_length_le {A} (f g : A -> bool) (l : list A) :
  (forall x, f x = true -> g x = true) ->
  (List.length (filter f l) <= List.length (filter g l))%nat.
Proof.
  intro H. induction l as [|x l IH]; simpl; [lia|].
  destruct (f x) eqn:F.
  - rewrite (H x F). simpl. lia.
  - destruct (g x); simpl; lia.
Qed.

Lemma le_later (d : Date) (a1 a2 : Z) :
  (a1 <= a2)%Z ->
  (DateObj.valueOf d <=? Num.of_Z a1)%num = true ->
  (DateObj.valueOf d <=? Num.of_Z a2)%num = true.
Proof.
  intro L. destruct d as [|t]; [discriminate|].
  unfold DateObj.valueOf. rewrite !NumFacts.le_of_Z, !Z.leb_le. lia.
Qed.

End PastFacts.

(** The past dividends only grow with the date: every entry past at one
    instant is past at any later one, so once there are enough entries for
    the trailing yield or the growth figure there always are. *)
Theorem pastDividends_grows
    (parseDate : string -> Date) (history : list DividendData) (a1 a2 : Z) :
  (a1 <= a2)%Z ->
  (forall d, In d (pastDividends parseDate history a1) ->
             In d (pastDividends parseDate history a2))
  /\ (List.length (pastDividends parseDate history a1)
      <= List.length (pastDividends parseDate history a2))%nat.
Proof.
  intro L. split.
  - intros d H. apply YieldFacts.pastDividends_In in H.
    apply YieldFacts.pastDividends_In. destruct H as [H1 H2].
    split; [exact H1|]. now apply (PastFacts.le_later _ a1 a2).
  - unfold pastDividends. apply PastFacts.filter_length_le.
    intros d H. now apply (PastFacts.le_later _ a1 a2).
Qed.

Lemma pastDividends_grows_witness :
  (List.length (pastDividends Sample.parseDate DIVIDEND_HISTORY may2025)
   <= List.length
        (pastDividends Sample.parseDate DIVIDEND_HISTORY july2025))%nat.
Proof.
  apply (pastDividends_grows Sample.parseDate DIVIDEND_HISTORY may2025
           july2025).
  unfold may2025, july2025. lia.
Defined.

(** ** The function's answers *)


(** ** The number ticker *)

Module TickerFacts.

Lemma pow4 (u : Q) : u ^ Z.of_nat 4 == u * u * (u * u).
Proof. simpl. ring. Qed.

Lemma share_bounds (d s t : Q) :
  0 < d ->
  (0 <= t - s -> 0 <= elapsedShare d s t)
  /\ (t - s < d -> elapsedShare d s t < 1)
  /\ (d <= t - s -> 1 <= elapsedShare d s t).
Proof.
  intro Hd. unfold elapsedShare. repeat split; intro H.
  - apply Qle_shift_div_l; [exact Hd|]. lra.
  - apply Qlt_shift_div_r; [exact Hd|]. lra.
  - apply Qle_shift_div_l; [exact Hd|]. lra.
Qed.

Lemma share_mono (d s t1 t2 : Q) :
  0 < d -> t1 <= t2 -> elapsedShare d s t1 <= elapsedShare d s t2.
Proof.
  intros Hd L. unfold elapsedShare, Qdiv.
  apply Qmult_le_compat_r; [lra|].
  apply Qlt_le_weak, Qinv_lt_0_compat, Hd.
Qed.

(** [animate] on finite arguments, by the elapsedShare elapsed. *)
Lemma animate_early (v d s t : Q) :
  0 < d -> elapsedShare d s t < 1 ->
  Ticker.animate (Fin v) (Fin d) (Fin s) (Fin t)
  = (Fin (0 + (v + - 0) * (1 + - (1 + - elapsedShare d s t) ^ Z.of_nat 4)),
     true).
Proof.
  intros Hd Hx. unfold Ticker.animate.
  assert (D0 : Qeq_bool d 0 = false) by (apply NumFacts.Qeq_bool_false; lra).
  change ((Fin t - Fin s) / Fin d)%num
    with (if Qeq_bool d 0
          then (if Qeq_bool (t + - s) 0 then NaN
                else Inf (Num.is_neg (t + - s)))
          else Fin (elapsedShare d s t)).
  rewrite D0. unfold Math.min.
  change (Fin 1 <? Fin (elapsedShare d s t))%num
    with (Num.Qlt_bool 1 (elapsedShare d s t)).
  replace (Num.Qlt_bool 1 (elapsedShare d s t)) with false
    by (symmetry; apply NumFacts.Qlt_bool_false; lra).
  change (Fin (elapsedShare d s t) <? Fin 1)%num
    with (Num.Qlt_bool (elapsedShare d s t) 1).
  replace (Num.Qlt_bool (elapsedShare d s t) 1) with true
    by (symmetry; now apply NumFacts.Qlt_bool_iff).
  reflexivity.
Qed.

Lemma animate_late (v : number) (d s t : Q) :
  0 < d -> 1 <= elapsedShare d s t ->
  Ticker.animate v (Fin d) (Fin s) (Fin t) = (v, false).
Proof.
  intros Hd Hx. unfold Ticker.animate.
  assert (D0 : Qeq_bool d 0 = false) by (apply NumFacts.Qeq_bool_false; lra).
  change ((Fin t - Fin s) / Fin d)%num
    with (if Qeq_bool d 0
          then (if Qeq_bool (t + - s) 0 then NaN
                else Inf (Num.is_neg (t + - s)))
          else Fin (elapsedShare d s t)).
  rewrite D0. unfold Math.min.
  change (Fin 1 <? Fin (elapsedShare d s t))%num
    with (Num.Qlt_bool 1 (elapsedShare d s t)).
  destruct (Num.Qlt_bool 1 (elapsedShare d s t)).
  - reflexivity.
  - change (Fin (elapsedShare d s t) <? Fin 1)%num
      with (Num.Qlt_bool (elapsedShare d s t) 1).
    replace (Num.Qlt_bool (elapsedShare d s t) 1) with false
      by (symmetry; now apply NumFacts.Qlt_bool_false).
    reflexivity.
Qed.

Lemma weight_range (x : Q) :
  0 <= x -> x < 1 -> 0 <= easeWeight x /\ easeWeight x < 1.
Proof.
  intros H0 H1. unfold easeWeight. set (u := 1 - x).
  assert (U0 : 0 < u) by (subst u; lra).
  assert (U1 : u <= 1) by (subst u; lra).
  assert (S0 : 0 < u * u) by (apply Qmult_lt_0_compat; assumption).
  assert (S1 : u * u <= 1) by nra.
  assert (F0 : 0 < u * u * (u * u)) by (apply Qmult_lt_0_compat; assumption).
  assert (F1 : u * u * (u * u) <= 1) by nra.
  lra.
Qed.

Lemma weight_mono (x y : Q) :
  0 <= x -> x <= y -> y < 1 -> easeWeight x <= easeWeight y.
Proof.
  intros H0 L H1. unfold easeWeight. set (u := 1 - x). set (w := 1 - y).
  assert (W0 : 0 < w) by (subst w; lra).
  assert (L' : w <= u) by (subst u w; lra).
  assert (S : w * w <= u * u) by nra.
  assert (S0 : 0 < w * w) by (apply Qmult_lt_0_compat; assumption).
  assert (F : w * w * (w * w) <= u * u * (u * u)) by nra.
  lra.
Qed.

Lemma shown_weight (v x : Q) :
  0 + (v + - 0) * (1 + - (1 + - x) ^ Z.of_nat 4) == v * easeWeight x.
Proof. rewrite pow4. unfold easeWeight. ring. Qed.

(** A frame either asks for another one or shows the value itself. *)
Lemma animate_stops_at_value (value duration startTime t : number) :
  snd (Ticker.animate value duration startTime t) = false ->
  Ticker.animate value duration startTime t = (value, false).
Proof.
  unfold Ticker.animate.
  destruct (Math.min _ _ <? Fin 1)%num; [discriminate|reflexivity].
Qed.

End TickerFacts.

(** While the duration has not elapsed, a frame displays the target value
    times an easing weight in [0, 1), so something between 0 and the
    target, and asks for another frame. *)
Theorem animate_in_flight (v d s t : Q) :
  0 < d -> 0 <= t - s -> t - s < d ->
  exists q, Ticker.animate (Fin v) (Fin d) (Fin s) (Fin t) = (Fin q, true)
            /\ q == v * easeWeight (elapsedShare d s t)
            /\ 0 <= easeWeight (elapsedShare d s t) < 1.
Proof.
  intros Hd H0 H1.
  destruct (TickerFacts.share_bounds d s t Hd) as (B0 & B1 & _).
  specialize (B0 H0). specialize (B1 H1).
  eexists. split; [now apply TickerFacts.animate_early|].
  split; [apply TickerFacts.shown_weight|].
  now apply TickerFacts.weight_range.
Qed.

Lemma animate_in_flight_witness :
  exists q, Ticker.animate (Fin 100) (Fin 1000) (Fin 50) (Fin 550)
            = (Fin q, true)
            /\ q == 100 * easeWeight (elapsedShare 1000 50 550)
            /\ 0 <= easeWeight (elapsedShare 1000 50 550) < 1.
Proof.
  apply (animate_in_flight 100 1000 50 550); vm_compute;
    first [reflexivity | discriminate].
Defined.

(** For a target that is not negative the displayed value never goes
    down from one frame to a later one. *)
Theorem animate_monotone (v d s t1 t2 : Q) :
  0 < d -> 0 <= v -> 0 <= t1 - s -> t1 <= t2 ->
  (fst (Ticker.animate (Fin v) (Fin d) (Fin s) (Fin t1))
   <=? fst (Ticker.animate (Fin v) (Fin d) (Fin s) (Fin t2)))%num = true.
Proof.
  intros Hd Hv H0 L.
  destruct (TickerFacts.share_bounds d s t1 Hd) as (A0 & A1 & A2).
  destruct (TickerFacts.share_bounds d s t2 Hd) as (B0 & B1 & B2).
  pose proof (TickerFacts.share_mono d s t1 t2 Hd L) as M.
  assert (X1 : 0 <= elapsedShare d s t1) by (apply A0; exact H0).
  destruct (Qlt_le_dec (t2 - s) d) as [E2|E2].
  - assert (E1 : t1 - s < d) by lra.
    rewrite !TickerFacts.animate_early by auto.
    cbn [fst Num.le]. apply Qle_bool_iff.
    rewrite !TickerFacts.shown_weight.
    pose proof (TickerFacts.weight_mono _ _ X1 M (B1 E2)) as W.
    nra.
  - rewrite (TickerFacts.animate_late (Fin v) d s t2) by auto.
    destruct (Qlt_le_dec (t1 - s) d) as [E1|E1].
    + rewrite TickerFacts.animate_early by auto.
      cbn [fst Num.le]. apply Qle_bool_iff.
      rewrite TickerFacts.shown_weight.
      destruct (TickerFacts.weight_range _ X1 (A1 E1)) as [W0 W1].
      nra.
    + rewrite (TickerFacts.animate_late (Fin v) d s t1) by auto.
      cbn [fst Num.le]. apply Qle_bool_iff. lra.
Qed.

Lemma animate_monotone_witness :
  (fst (Ticker.animate (Fin 100) (Fin 1000) (Fin 50) (Fin 550))
   <=? fst (Ticker.animate (Fin 100) (Fin 1000) (Fin 50) (Fin 600)))%num
  = true.
Proof.
  apply (animate_monotone 100 1000 50 550 600); vm_compute;
    first [reflexivity | discriminate].
Defined.

(** Once the duration has elapsed a frame displays the target itself and
    asks for no further frame; with a duration of 0 or [NaN] that is so at
    the first frame, division by zero notwithstanding. *)
Theorem animate_final (value : number) (d s t : Q) :
  (0 < d -> d <= t - s ->
   Ticker.animate value (Fin d) (Fin s) (Fin t) = (value, false))
  /\ (s <= t ->
      Ticker.animate value (Fin 0) (Fin s) (Fin t) = (value, false))
  /\ (forall startTime currentTime,
        Ticker.animate value NaN startTime currentTime = (value, false)).
Proof.
  split; [|split].
  - intros Hd H. apply TickerFacts.animate_late; [exact Hd|].
    now apply (TickerFacts.share_bounds d s t Hd).
  - intro L. unfold Ticker.animate.
    change ((Fin t - Fin s) / Fin 0)%num
      with (if Qeq_bool (t + - s) 0 then NaN
            else Inf (Num.is_neg (t + - s))).
    destruct (Qeq_bool (t + - s) 0); [reflexivity|].
    replace (Num.is_neg (t + - s)) with false; [reflexivity|].
    symmetry. apply NumFacts.Qlt_bool_false. lra.
  - intros startTime currentTime. unfold Ticker.animate.
    replace ((currentTime - startTime) / NaN)%num with NaN; [reflexivity|].
    now destruct (currentTime - startTime)%num.
Qed.

Lemma animate_final_witness :
  Ticker.animate (dec 13248 2) (Fin 1000) (Fin 50) (Fin 1050)
  = (dec 13248 2, false)
  /\ Ticker.animate (dec 13248 2) (Fin 0) (Fin 50) (Fin 50)
     = (dec 13248 2, false).
Proof.
  split.
  - apply (proj1 (animate_final (dec 13248 2) 1000 50 1050));
      vm_compute; first [reflexivity | discriminate].
  - apply (proj1 (proj2 (animate_final (dec 13248 2) 0 50 50))).
    vm_compute. discriminate.
Defined.

(** An animation that completes displays exactly the target, and it
    completes as soon as the browser delivers a frame at or after the end
    of the duration, whatever frames came before. *)
Theorem runFrames_completes (value : number) (d s : Q)
    (times : list number) (displayValue : number) :
  0 < d ->
  let out := Ticker.runFrames value (Fin d) (Fin s) times displayValue in
  (snd out = true -> fst out = value)
  /\ (Exists (fun t => exists q, t = Fin q /\ d <= q - s) times ->
      out = (value, true)).
Proof.
  intros Hd out. subst out.
  assert (A : forall ts shown,
             snd (Ticker.runFrames value (Fin d) (Fin s) ts shown) = true ->
             Ticker.runFrames value (Fin d) (Fin s) ts shown = (value, true)).
  { induction ts as [|t rest IH]; intros shown; simpl;
      [intro H; discriminate H|].
    destruct (Ticker.animate value (Fin d) (Fin s) t) as [v again] eqn:E.
    destruct again; [apply IH|].
    intros _. pose proof (TickerFacts.animate_stops_at_value value (Fin d)
                            (Fin s) t) as S.
    rewrite E in S. specialize (S eq_refl). congruence. }
  split.
  - intro H. now rewrite (A _ _ H).
  - intro Ex. revert displayValue.
    induction Ex as [t rest (q & -> & H)|t rest Ex IH]; intro shown; simpl.
    + rewrite (TickerFacts.animate_late value d s q Hd
                 (proj2 (proj2 (TickerFacts.share_bounds d s q Hd)) H)).
      reflexivity.
    + destruct (Ticker.animate value (Fin d) (Fin s) t) as [v again] eqn:E.
      destruct again; [apply IH|].
      pose proof (TickerFacts.animate_stops_at_value value (Fin d)
                    (Fin s) t) as S.
      rewrite E in S. specialize (S eq_refl). congruence.
Qed.

Lemma runFrames_completes_witness :
  Ticker.runFrames (Fin 100) (Fin 1000) (Fin 50)
    [Fin 40; Fin 550; Fin 1100; Fin 1200] (Fin 0)
  = (Fin 100, true).
Proof.
  apply (proj2 (runFrames_completes (Fin 100) 1000 50
                  [Fin 40; Fin 550; Fin 1100; Fin 1200] (Fin 0) eq_refl)).
  apply Exists_cons_tl, Exists_cons_tl, Exists_cons_hd.
  exists 1100. split; [reflexivity|]. vm_compute. discriminate.
Defined.

Module FormatFacts.

Lemma app_empty (s : string) : s ++ "" = s.
Proof. induction s as [|c s IH]; simpl; [reflexivity|now rewrite IH]. Qed.

Lemma app_assoc (a b c : string) : (a ++ b) ++ c = a ++ b ++ c.
Proof. induction a as [|x a IH]; simpl; [reflexivity|now rewrite IH]. Qed.

Lemma concat_head (x : string) (ps : list string) :
  String.concat "." (x :: ps) = x ++ String.concat "." ("" :: ps).
Proof. destruct ps; simpl; [now rewrite app_empty|reflexivity]. Qed.

Lemma split_dot_cons (s : string) : exists p ps, Ticker.split_dot s = p :: ps.
Proof.
  induction s as [|c r (p & ps & E)]; simpl; [now eexists _, _|].
  destruct (Ascii.eqb c "."); [now eexists _, _|].
  rewrite E. now eexists _, _.
Qed.

(** [split('.')] followed by [join('.')] gives the text back. *)
Lemma split_dot_join (s : string) : String.concat "." (Ticker.split_dot s) = s.
Proof.
  induction s as [|c r IH]; [reflexivity|]. simpl.
  destruct (split_dot_cons r) as (p & ps & E). rewrite E in *.
  destruct (Ascii.eqb c ".") eqn:C.
  - apply Ascii.eqb_eq in C. subst c.
    change (String.concat "." ("" :: p :: ps))
      with ("" ++ "." ++ String.concat "." (p :: ps)).
    rewrite IH. reflexivity.
  - rewrite concat_head. simpl. f_equal.
    rewrite <- IH. symmetry. apply concat_head.
Qed.

Lemma strip_app (a b : string) :
  Ticker.strip_commas (a ++ b) = Ticker.strip_commas a ++ Ticker.strip_commas b.
Proof.
  induction a as [|c a IH]; simpl; [reflexivity|].
  destruct (Ascii.eqb c ","); simpl; now rewrite IH.
Qed.

Lemma insert_commas_strip (s : string) : forall prev,
  Ticker.strip_commas (Ticker.insert_commas prev s) = Ticker.strip_commas s.
Proof.
  induction s as [|c r IH]; intro prev; [reflexivity|].
  cbn [Ticker.insert_commas].
  destruct (Ticker.not_boundary prev (Some c)
            && Ticker.lookahead (String c r));
    simpl; destruct (Ascii.eqb c ","); now rewrite IH.
Qed.

(** The two halves of [formatText]: the text before the first point, with
    commas, and the rest as it was. *)
Lemma formatText_parts (s p : string) (ps : list string) :
  Ticker.split_dot s = p :: ps ->
  Ticker.formatText s
  = Ticker.insert_commas None p ++ String.concat "." ("" :: ps)
  /\ s = p ++ String.concat "." ("" :: ps).
Proof.
  intro E. unfold Ticker.formatText. rewrite E. split.
  - apply concat_head.
  - rewrite <- concat_head, <- E. symmetry. apply split_dot_join.
Qed.

Lemma formatText_strip (s : string) :
  Ticker.strip_commas (Ticker.formatText s) = Ticker.strip_commas s.
Proof.
  destruct (split_dot_cons s) as (p & ps & E).
  destruct (formatText_parts s p ps E) as [F S].
  rewrite F. rewrite S at 1. rewrite !strip_app. f_equal.
  apply insert_commas_strip.
Qed.

Lemma digit_is_word (c : ascii) :
  Str.is_digit c = true -> Ticker.is_word c = true.
Proof.
  unfold Str.is_digit, Ticker.is_word. intro H. now rewrite H.
Qed.

Lemma digit_not_dot (c : ascii) :
  Str.is_digit c = true -> Ascii.eqb c "." = false.
Proof.
  intro H. destruct (Ascii.eqb c ".") eqn:E; [|reflexivity].
  apply Ascii.eqb_eq in E. subst c. discriminate H.
Qed.

Lemma all_digits_cons (c : ascii) (r : string) :
  Ticker.all_digits (String c r) = Str.is_digit c && Ticker.all_digits r.
Proof. reflexivity. Qed.

Lemma digit_run_all (s : string) :
  Ticker.all_digits s = true -> Ticker.digit_run s = String.length s.
Proof.
  induction s as [|c r IH]; [reflexivity|].
  rewrite all_digits_cons. intro H. apply andb_true_iff in H.
  destruct H as [Hc Hr]. simpl. now rewrite Hc, IH.
Qed.

(** Inside a run of digits the commas fall every three from the right. *)
Lemma insert_commas_digits (r : string) : forall c,
  Str.is_digit c = true -> Ticker.all_digits r = true ->
  String c (Ticker.insert_commas (Some c) r) = Ticker.group_right (String c r).
Proof.
  induction r as [|c' r' IH]; intros c Hc Hr; [reflexivity|].
  pose proof Hr as Hr0.
  rewrite all_digits_cons in Hr. apply andb_true_iff in Hr.
  destruct Hr as [Hc' Hr'].
  cbn [Ticker.insert_commas Ticker.group_right].
  rewrite (IH c' Hc' Hr').
  unfold Ticker.not_boundary, Ticker.lookahead, Ticker.is_word_opt.
  rewrite (digit_is_word c Hc), (digit_is_word c' Hc').
  rewrite (digit_run_all _ Hr0).
  cbn [Bool.eqb andb Ticker.group_right].
  destruct ((0 <? String.length (String c' r'))
            && (String.length (String c' r') mod 3 =? 0))%nat; reflexivity.
Qed.

Lemma insert_commas_signed (sign ds : string) :
  sign = "" \/ sign = "-" ->
  Ticker.all_digits ds = true ->
  Ticker.insert_commas None (sign ++ ds) = sign ++ Ticker.group_right ds.
Proof.
  intros S D. destruct ds as [|c r].
  - destruct S; subst; reflexivity.
  - pose proof D as D0. rewrite all_digits_cons in D.
    apply andb_true_iff in D. destruct D as [Hc Hr].
    assert (W : Ticker.is_word c = true) by now apply digit_is_word.
    destruct S; subst sign.
    + change ("" ++ String c r) with (String c r).
      cbn [Ticker.insert_commas]. unfold Ticker.not_boundary.
      cbn [Ticker.is_word_opt]. rewrite W. cbn [Bool.eqb andb].
      now apply insert_commas_digits.
    + change ("-" ++ String c r) with (String "-" (String c r)).
      cbn [Ticker.insert_commas]. unfold Ticker.not_boundary.
      cbn [Ticker.is_word_opt]. rewrite W.
      change (Ticker.is_word "-") with false.
      change (Ticker.lookahead (String "-" (String c r))) with false.
      cbn [Bool.eqb andb]. simpl append. f_equal.
      now apply insert_commas_digits.
Qed.

Lemma split_dot_digits (ds : string) : forall tail p ps,
  Ticker.all_digits ds = true ->
  Ticker.split_dot tail = p :: ps ->
  Ticker.split_dot (ds ++ tail) = (ds ++ p) :: ps.
Proof.
  induction ds as [|c r IH]; intros tail p ps D E; [exact E|].
  rewrite all_digits_cons in D. apply andb_true_iff in D.
  destruct D as [Hc Hr]. simpl.
  rewrite (digit_not_dot c Hc), (IH tail p ps Hr E). reflexivity.
Qed.

End FormatFacts.

(** [formatNumber] throws for more than 100 decimals and otherwise only
    adds commas to what [toFixed] printed: with the commas deleted the two
    texts are the same. *)
Theorem formatNumber_only_adds_commas
    (valueToString : value -> string) (decimalPlaces : nat) (num : number) :
  ((100 < decimalPlaces)%nat ->
   Ticker.formatNumber valueToString decimalPlaces num = Throw)
  /\ ((decimalPlaces <= 100)%nat ->
      exists fixedNum out,
        Ticker.toFixed valueToString decimalPlaces num = Normal fixedNum
        /\ Ticker.formatNumber valueToString decimalPlaces num = Normal out
        /\ Ticker.strip_commas out = Ticker.strip_commas fixedNum).
Proof.
  unfold Ticker.formatNumber, Ticker.toFixed. split; intro H.
  - apply Nat.ltb_lt in H. now rewrite H.
  - apply Nat.ltb_ge in H. rewrite H. simpl.
    eexists _, _. split; [reflexivity|]. split; [reflexivity|].
    apply FormatFacts.formatText_strip.
Qed.

Lemma formatNumber_only_adds_commas_witness :
  Ticker.formatNumber Sample.valueToString 101 (Fin 1) = Throw.
Proof.
  apply (proj1 (formatNumber_only_adds_commas Sample.valueToString 101
                  (Fin 1))).
  vm_compute. lia.
Defined.

(** On a text made of an optional minus sign, digits, and nothing more or a
    point and anything after it, [formatNumber]'s grouping puts a comma
    before every group of three digits counted from the point, none after
    the sign, and leaves what follows the point as it is. *)
Theorem formatText_groups (sign ds rest : string) :
  sign = "" \/ sign = "-" ->
  Ticker.all_digits ds = true ->
  rest = "" \/ (exists r, rest = String "." r) ->
  Ticker.formatText (sign ++ ds ++ rest)
  = sign ++ Ticker.group_right ds ++ rest.
Proof.
  intros S D R.
  destruct (FormatFacts.split_dot_cons rest) as (p & ps & E).
  assert (P : p = "").
  { destruct R as [->|(r & ->)]; simpl in E; congruence. }
  subst p.
  assert (E' : Ticker.split_dot (sign ++ ds ++ rest) = (sign ++ ds) :: ps).
  { pose proof (FormatFacts.split_dot_digits ds rest "" ps D E) as Q.
    rewrite FormatFacts.app_empty in Q.
    destruct S; subst sign; simpl; now rewrite Q. }
  destruct (FormatFacts.formatText_parts _ _ _ E') as [F _].
  destruct (FormatFacts.formatText_parts rest "" ps E) as [_ T].
  assert (T' : String.concat "." ("" :: ps) = rest)
    by (symmetry; exact T).
  rewrite F, T', (FormatFacts.insert_commas_signed _ _ S D).
  apply FormatFacts.app_assoc.
Qed.

Lemma formatText_groups_witness :
  Ticker.formatText "-1234567.891" = "-1,234,567.891".
Proof.
  apply (formatText_groups "-" "1234567" ".891").
  - now right.
  - reflexivity.
  - right. now exists "891".
Defined.

(** The ticker's text for some amounts, two decimals as the application
    asks for. *)
Example formatNumber_samples :
  Ticker.formatNumber Sample.valueToString 2 (dec 13248407 5)
  = Normal "132.48"
  /\ Ticker.formatNumber Sample.valueToString 2 (dec 1234567891 3)
     = Normal "1,234,567.89"
  /\ Ticker.formatNumber Sample.valueToString 2 (dec (-12345) 1)
     = Normal "-1,234.50"
  /\ Ticker.formatNumber Sample.valueToString 2 NaN = Normal "NaN".
Proof. repeat split. Qed.

(** ** The service worker *)

Module SWFacts.

Import SW.

Lemma cacheMatch_put_same (c : cache) (url : string) (r : netResponse) :
  cacheMatch (cachePut c url r) url = Some r.
Proof.
  induction c as [|[u r'] c IH]; simpl.
  - now rewrite String.eqb_refl.
  - destruct (String.eqb url u) eqn:E; simpl.
    + now rewrite String.eqb_refl.
    + now rewrite E.
Qed.

Lemma cacheMatch_put_other (c : cache) (url url' : string) (r : netResponse) :
  url' <> url -> cacheMatch (cachePut c url r) url' = cacheMatch c url'.
Proof.
  intro N. apply String.eqb_neq in N.
  induction c as [|[u r'] c IH]; simpl.
  - now rewrite N.
  - destruct (String.eqb url u) eqn:E; simpl.
    + apply String.eqb_eq in E. subst u. now rewrite N.
    + destruct (String.eqb url' u); [reflexivity|exact IH].
Qed.

Lemma lookupIn_putIn_same (cs : cacheStorage) (n url : string)
    (r : netResponse) :
  lookupIn (putIn cs n url r) n url = Some r.
Proof.
  unfold lookupIn. induction cs as [|[m c] cs IH]; simpl.
  - rewrite String.eqb_refl. simpl. now rewrite String.eqb_refl.
  - destruct (String.eqb n m) eqn:E; simpl; rewrite E.
    + apply cacheMatch_put_same.
    + exact IH.
Qed.

Lemma lookupIn_putIn_other (cs : cacheStorage) (n url n' url' : string)
    (r : netResponse) :
  n' <> n \/ url' <> url ->
  lookupIn (putIn cs n url r) n' url' = lookupIn cs n' url'.
Proof.
  intro N. unfold lookupIn. induction cs as [|[m c] cs IH]; simpl.
  - destruct (String.eqb n' n) eqn:E; [|reflexivity].
    apply String.eqb_eq in E. subst n'. simpl.
    destruct N as [N|N]; [contradiction|].
    apply String.eqb_neq in N. now rewrite N.
  - destruct (String.eqb n m) eqn:E; simpl.
    + apply String.eqb_eq in E. subst m.
      destruct (String.eqb n' n) eqn:E'; [|reflexivity].
      apply String.eqb_eq in E'. subst n'.
      destruct N as [N|N]; [contradiction|].
      now apply cacheMatch_put_other.
    + destruct (String.eqb n' m); [reflexivity|exact IH].
Qed.

Lemma find_app_empty (cs : cacheStorage) (n n' : string) :
  find (cs ++ [(n, [])])%list n'
  = match find cs n' with
    | Some c => Some c
    | None => if String.eqb n' n then Some [] else None
    end.
Proof.
  induction cs as [|[m c] cs IH]; simpl; [reflexivity|].
  destruct (String.eqb n' m); [reflexivity|exact IH].
Qed.

(** Opening a cache changes no answer. *)
Lemma lookupIn_open (cs : cacheStorage) (n n' url : string) :
  lookupIn (open cs n) n' url = lookupIn cs n' url.
Proof.
  unfold lookupIn, open. destruct (find cs n) eqn:F; [reflexivity|].
  rewrite find_app_empty. destruct (find cs n'); [reflexivity|].
  destruct (String.eqb n' n); reflexivity.
Qed.

Lemma filter_all {A} (f : A -> bool) (l : list A) :
  (forall x, In x l -> f x = true) -> filter f l = l.
Proof.
  induction l as [|x l IH]; intro H; simpl; [reflexivity|].
  rewrite (H x (or_introl Logic.eq_refl)). f_equal.
  apply IH. intros y Hy. apply H. now right.
Qed.

Lemma filter_both {A} (f g : A -> bool) (l : list A) :
  filter f (filter g l) = filter (fun x => g x && f x) l.
Proof.
  induction l as [|x l IH]; simpl; [reflexivity|].
  destruct (g x); simpl; [destruct (f x)|]; now rewrite IH.
Qed.

(** The loop of [activate] over any list of names. *)
Lemma activate_fold (names : list string) : forall acc : cacheStorage,
  fold_left
    (fun acc cacheName =>
       if notListed [CACHE_NAME] cacheName then delete acc cacheName else acc)
    names acc
  = filter (fun e => String.eqb (fst e) CACHE_NAME
                     || negb (existsb (String.eqb (fst e)) names)) acc.
Proof.
  induction names as [|n names IH]; intro acc; simpl.
  - symmetry. apply filter_all. intros x _. apply orb_true_r.
  - rewrite IH. unfold notListed, delete. simpl existsb.
    rewrite orb_false_r.
    destruct (String.eqb n CACHE_NAME) eqn:E; simpl negb; cbv iota.
    + apply String.eqb_eq in E. subst n.
      apply filter_ext. intro e.
      destruct (String.eqb (fst e) CACHE_NAME); reflexivity.
    + rewrite filter_both. apply filter_ext. intro e.
      rewrite (String.eqb_sym n (fst e)).
      destruct (String.eqb (fst e) n) eqn:E'; simpl.
      * apply String.eqb_eq in E'. rewrite E', E. reflexivity.
      * reflexivity.
Qed.

Lemma activate_filter (cs : cacheStorage) :
  activate cs = filter (fun e => String.eqb (fst e) CACHE_NAME) cs.
Proof.
  unfold activate. rewrite activate_fold. apply filter_ext_in.
  intros e He.
  replace (existsb (String.eqb (fst e)) (keys cs)) with true.
  - now rewrite orb_false_r.
  - symmetry. apply existsb_exists. exists (fst e). split.
    + unfold keys. now apply in_map.
    + apply String.eqb_refl.
Qed.

Lemma find_filter_name (cs : cacheStorage) (name : string) :
  find (filter (fun e => String.eqb (fst e) CACHE_NAME) cs) name
  = if String.eqb name CACHE_NAME then find cs name else None.
Proof.
  induction cs as [|[m c] cs IH]; simpl.
  - now destruct (String.eqb name CACHE_NAME).
  - destruct (String.eqb m CACHE_NAME) eqn:E; simpl.
    + apply String.eqb_eq in E. subst m. rewrite IH.
      now destruct (String.eqb name CACHE_NAME).
    + rewrite IH. destruct (String.eqb name CACHE_NAME) eqn:E'; [|reflexivity].
      apply String.eqb_eq in E'. subst name.
      rewrite String.eqb_sym, E. reflexivity.
Qed.




End SWFacts.

(** Activation deletes every cache but the current one, which it leaves as
    it is. *)
Theorem activate_keeps_current (cs : SW.cacheStorage) (name : string) :
  SW.find (SW.activate cs) name
  = if String.eqb name SW.CACHE_NAME then SW.find cs name else None.
Proof.
  rewrite SWFacts.activate_filter. apply SWFacts.find_filter_name.
Qed.



(** Every other request is served from the current cache when it has the
    request, whatever the network does, and from the network otherwise;
    the cache takes the network's answer when its status is 200 or it is
    opaque, and keeps what it had when the network fails or answers
    anything else. *)
Theorem onFetch_asset_cache_first
    (cs : SW.cacheStorage) (url : string) (network : completion netResponse) :
  SW.includes url SW.API_PATH = false ->
  let out := SW.onFetch cs url network in
  let storable r :=
    (status (payload r) =? 200)%Z
    || match kind r with opaque => true | _ => false end in
  (forall c, SW.lookupIn cs SW.CACHE_NAME url = Some c -> fst out = Normal c)
  /\ (SW.lookupIn cs SW.CACHE_NAME url = None -> fst out = network)
  /\ (forall r, network = Normal r -> storable r = true ->
        SW.lookupIn (snd out) SW.CACHE_NAME url = Some r)
  /\ (network = Throw
      \/ (exists r, network = Normal r /\ storable r = false) ->
      SW.lookupIn (snd out) SW.CACHE_NAME url
      = SW.lookupIn cs SW.CACHE_NAME url).
Proof.
  intros I out storable. subst out storable. unfold SW.onFetch. rewrite I.
  pose proof (SWFacts.lookupIn_open cs SW.CACHE_NAME SW.CACHE_NAME url) as O.
  unfold SW.lookupIn in O at 1.
  set (cs' := SW.open cs SW.CACHE_NAME) in *.
  set (cached := match SW.find cs' SW.CACHE_NAME with
                 | Some c => SW.cacheMatch c url
                 | None => None
                 end) in *.
  split; [|split; [|split]].
  - intros c H. rewrite H in O. rewrite O.
    destruct network as [r|]; [|reflexivity].
    now destruct (_ || _).
  - intro H. rewrite H in O. rewrite O.
    destruct network as [r|]; [|reflexivity].
    now destruct (_ || _).
  - intros r -> S. rewrite S. cbn [snd].
    apply SWFacts.lookupIn_putIn_same.
  - intros [->|(r & -> & S)].
    + cbn [snd]. apply SWFacts.lookupIn_open.
    + rewrite S. cbn [snd]. apply SWFacts.lookupIn_open.
Qed.

Lemma onFetch_asset_cache_first_witness :
  fst (SW.onFetch
         [(SW.CACHE_NAME,
           [("/App.tsx", mkNet (mkResponse 200 (Normal VNull)) basic)])]
         "/App.tsx" Throw)
  = Normal (mkNet (mkResponse 200 (Normal VNull)) basic).
Proof.
  apply (proj1 (onFetch_asset_cache_first
                  [(SW.CACHE_NAME,
                    [("/App.tsx", mkNet (mkResponse 200 (Normal VNull)) basic)])]
                  "/App.tsx" Throw eq_refl)).
  reflexivity.
Defined.



(** Without activation an older cache can win: the storage is searched
    oldest cache first, so a copy left in a cache of another name hides the
    answer just stored. *)
Example stale_copy_in_older_cache :
  let url := "https://schddividend.com/.netlify/functions/get-schd-price" in
  let old := mkNet (mkResponse 200 (Normal (VObj [("price", VNum (Fin 20))])))
                   basic in
  let new := mkNet (mkResponse 200 (Normal (VObj [("price", VNum (Fin 27))])))
                   basic in
  fst (SW.onFetch (snd (SW.onFetch [("schd-calculator-v0", [(url, old)])] url
                                   (Normal new)))
                  url Throw)
  = Normal old.
Proof. reflexivity. Qed.



Module InstallFacts.

Import SW.

Lemma URLS_NoDup : NoDup URLS_TO_CACHE.
Proof.
  unfold URLS_TO_CACHE.
  repeat (constructor; [simpl; intuition discriminate|]). constructor.
Qed.

Lemma append_inj (o a b : string) : o ++ a = o ++ b -> a = b.
Proof.
  induction o as [|c o IH]; simpl; intro H; [exact H|].
  inversion H. now apply IH.
Qed.

Lemma resolved_In (o u : string) (l : list string) :
  In (o ++ u) (map (append o) l) <-> In u l.
Proof.
  rewrite in_map_iff. split.
  - intros (x & E & I). apply append_inj in E. now subst x.
  - intro I. now exists u.
Qed.

Lemma resolved_NoDup (o : string) (l : list string) :
  NoDup l -> NoDup (map (append o) l).
Proof.
  induction 1 as [|x l N D IH]; simpl; constructor; [|exact IH].
  now rewrite resolved_In.
Qed.

(** The loop of [install] does not touch the entry of a URL outside the
    list it runs over. *)
Lemma fold_other (network : string -> completion netResponse)
    (urls : list string) (url : string) : forall acc,
  ~ In url urls ->
  lookupIn
    (fold_left
       (fun acc u =>
          match network u with
          | Normal r => if addable r then putIn acc CACHE_NAME u r else acc
          | Throw => acc
          end) urls acc) CACHE_NAME url
  = lookupIn acc CACHE_NAME url.
Proof.
  induction urls as [|u urls IH]; intros acc N; [reflexivity|]. simpl.
  rewrite IH by (intro H; apply N; now right).
  destruct (network u) as [r|]; [|reflexivity].
  destruct (addable r); [|reflexivity].
  apply SWFacts.lookupIn_putIn_other. right. intro E. apply N. now left.
Qed.

Lemma fold_hit (network : string -> completion netResponse)
    (urls : list string) (url : string) (r : netResponse) : forall acc,
  NoDup urls -> In url urls ->
  network url = Normal r -> addable r = true ->
  lookupIn
    (fold_left
       (fun acc u =>
          match network u with
          | Normal r => if addable r then putIn acc CACHE_NAME u r else acc
          | Throw => acc
          end) urls acc) CACHE_NAME url
  = Some r.
Proof.
  induction urls as [|u urls IH]; intros acc D I E A; [contradiction|].
  inversion D as [|? ? Nu D']; subst. simpl. destruct I as [->|I].
  - rewrite fold_other by exact Nu. rewrite E, A.
    apply SWFacts.lookupIn_putIn_same.
  - now apply IH.
Qed.

Lemma fold_miss (network : string -> completion netResponse)
    (urls : list string) (url : string) : forall acc,
  NoDup urls ->
  network url = Throw
  \/ (exists r, network url = Normal r /\ addable r = false) ->
  lookupIn
    (fold_left
       (fun acc u =>
          match network u with
          | Normal r => if addable r then putIn acc CACHE_NAME u r else acc
          | Throw => acc
          end) urls acc) CACHE_NAME url
  = lookupIn acc CACHE_NAME url.
Proof.
  induction urls as [|u urls IH]; intros acc D F; [reflexivity|].
  inversion D as [|? ? Nu D']; subst. simpl. rewrite IH by assumption.
  destruct (String.eqb u url) eqn:U.
  - apply String.eqb_eq in U. subst u.
    destruct F as [->|(r & -> & ->)]; reflexivity.
  - apply String.eqb_neq in U.
    destruct (network u) as [r|]; [|reflexivity].
    destruct (addable r); [|reflexivity].
    apply SWFacts.lookupIn_putIn_other. right. congruence.
Qed.

End InstallFacts.

(** After the install event the current cache holds, for each listed path,
    the answer its fetch gave if that was a 2xx other than 206, whatever
    happened to the other paths; a path whose fetch failed keeps the entry
    it had. *)
Theorem install_caches_what_loads
    (origin : string) (network : string -> completion netResponse)
    (cs : SW.cacheStorage) (path : string) :
  In path SW.URLS_TO_CACHE ->
  let url := origin ++ path in
  let after := SW.lookupIn (SW.install origin network cs) SW.CACHE_NAME url in
  (forall r, network url = Normal r -> SW.addable r = true -> after = Some r)
  /\ (network url = Throw
      \/ (exists r, network url = Normal r /\ SW.addable r = false) ->
      after = SW.lookupIn cs SW.CACHE_NAME url).
Proof.
  intros I url after. subst url after. unfold SW.install.
  pose proof (InstallFacts.resolved_NoDup origin _ InstallFacts.URLS_NoDup)
    as D.
  split.
  - intros r E A. apply InstallFacts.fold_hit; auto.
    now apply InstallFacts.resolved_In.
  - intro F. rewrite InstallFacts.fold_miss by assumption.
    apply SWFacts.lookupIn_open.
Qed.

Lemma install_caches_what_loads_witness :
  let page := mkNet (mkResponse 200 (Normal VNull)) basic in
  let network u :=
    if String.eqb u "https://schddividend.com/App.tsx"
    then Normal page else Throw in
  SW.lookupIn (SW.install "https://schddividend.com" network [])
              SW.CACHE_NAME "https://schddividend.com/App.tsx"
  = Some page.
Proof.
  intros page network.
  apply (proj1 (install_caches_what_loads "https://schddividend.com" network
                  [] "/App.tsx" ltac:(simpl; tauto))); reflexivity.
Defined.



(** ** The component under any sequence of inputs *)

Module StateFacts.





End StateFacts.



(** While the share price in the state is [<= 0], no change of the
    investment or of the method moves the yield: it stays what it was,
    whichever method is selected, and every render shows an income of
    zero. *)
Theorem yield_frozen_without_price
    (history past : list DividendData) (evs : list event) (st : AppState) :
  (stSharePrice st <=? Fin 0)%num = true ->
  Forall (fun ev => match ev with
                    | SetSharePrice _ => False
                    | _ => True
                    end) evs ->
  let st' := fold_left (dispatch history past) evs st in
  stDividendYield st' = stDividendYield st
  /\ stSharePrice st' = stSharePrice st
  /\ rendered st' = noIncome.
Proof.
  intros P F. revert st P.
  induction F as [|ev evs Hev F IH]; intros st P; cbv zeta.
  - cbn [fold_left]. repeat split. unfold rendered.
    apply calculateDividends_guard. rewrite P. now rewrite orb_true_r.
  - cbn [fold_left].
    assert (G : (stSharePrice st >? Fin 0)%num = false).
    { destruct (stSharePrice st) as [|q|[|]]; simpl in *;
        try reflexivity; try discriminate.
      apply NumFacts.Qlt_bool_false. now apply Qle_bool_iff. }
    assert (E : stDividendYield (dispatch history past st ev)
                = stDividendYield st
                /\ stSharePrice (dispatch history past st ev)
                   = stSharePrice st).
    { destruct ev as [n|n|m]; cbn [dispatch]; [|contradiction|].
      - destruct (sameValue n (stInvestment st)); split; reflexivity.
      - destruct (sameMethod m (stYieldMethod st)); [split; reflexivity|].
        unfold runYieldEffect.
        cbn [stDividendYield stSharePrice stYieldMethod].
        unfold yieldEffect. rewrite G. split; reflexivity. }
    destruct E as [Ey Ep].
    specialize (IH (dispatch history past st ev)).
    cbv zeta in IH. rewrite Ey, Ep in IH. apply IH. exact P.
Qed.

Lemma yield_frozen_without_price_witness :
  stDividendYield
    (fold_left (dispatch DIVIDEND_HISTORY DIVIDEND_HISTORY)
       [SetYieldMethod ttm; SetInvestment (Fin 500)]
       (dispatch DIVIDEND_HISTORY DIVIDEND_HISTORY
          (mounted DIVIDEND_HISTORY DIVIDEND_HISTORY) (SetSharePrice (Fin 0))))
  = stDividendYield (mounted DIVIDEND_HISTORY DIVIDEND_HISTORY).
Proof.
  apply (yield_frozen_without_price DIVIDEND_HISTORY DIVIDEND_HISTORY
           [SetYieldMethod ttm; SetInvestment (Fin 500)]
           (dispatch DIVIDEND_HISTORY DIVIDEND_HISTORY
              (mounted DIVIDEND_HISTORY DIVIDEND_HISTORY)
              (SetSharePrice (Fin 0)))).
  - reflexivity.
  - repeat constructor.
Defined.
